(** * Settings resolution, validation and rendering of gluetun

    A shallow embedding of the OpenVPN settings (merge, defaults,
    validation, rendering), of the updater settings and of the WireGuard
    settings check, with the properties the specification states about
    them. *)

From Stdlib Require Import String Ascii List ZArith Bool Lia.
From Stdlib Require Import DecimalString.
Import ListNotations.

Local Open Scope string_scope.
Local Open Scope Z_scope.

(** ** Go values

    A Go pointer [*T] is an [option T]: [None] is the nil pointer, and
    [Some v] a pointer to a cell holding [v].  A Go slice [[]T] is an
    [option (list T)]: [None] is the nil slice and [Some []] the empty,
    non-nil one.  An [int] and a [uint16] are integers of [Z]; no
    arithmetic is done on them, only comparisons. *)

Definition ptr (T : Type) : Type := option T.
Definition slice (T : Type) : Type := option (list T).

(** [len(s)] of a slice: the nil slice has length 0. *)
Definition len {T : Type} (s : slice T) : nat :=
  match s with
  | None => O
  | Some l => length l
  end.

(** Dereferencing a nil pointer panics.  [go A] is the outcome of a piece
    of code that either returns a value or panics on a nil dereference. *)
Inductive go (A : Type) : Type :=
| Ret (a : A)
| NilDeref.

Arguments Ret {A} a.
Arguments NilDeref {A}.

Definition bind {A B : Type} (m : go A) (k : A -> go B) : go B :=
  match m with
  | Ret a => k a
  | NilDeref => NilDeref
  end.

Declare Scope go_scope.
Delimit Scope go_scope with go.
Notation "x <- m ;; k" := (bind m (fun x => k))
  (at level 61, m at next level, right associativity) : go_scope.

(** [*p] *)
Definition deref {T : Type} (p : ptr T) : go T :=
  match p with
  | Some v => Ret v
  | None => NilDeref
  end.

Definition panics {A : Type} (m : go A) : bool :=
  match m with
  | Ret _ => false
  | NilDeref => true
  end.

(** ** Formatting *)

(** [%d] of an integer. *)
Definition fmt_d (z : Z) : string := NilZero.string_of_int (Z.to_int z).

(** [strings.Join]. *)
Fixpoint join (sep : string) (l : list string) : string :=
  match l with
  | [] => ""
  | [x] => x
  | x :: rest => x ++ sep ++ join sep rest
  end.

(** The line feed. *)
Definition newline : string := String "010" EmptyString.

(** [%s] of a [[]string]: the elements between brackets, separated by
    spaces. *)
Definition fmt_strings (s : slice string) : string :=
  "[" ++ join " " (match s with Some l => l | None => [] end) ++ "]".

(** ** The OpenVPN settings *)

Record OpenVPN : Type := mkOpenVPN {
  Version : string;
  User : ptr string;
  Password : ptr string;
  ConfFile : ptr string;
  Ciphers : slice string;
  Auth : ptr string;
  Cert : ptr string;
  Key : ptr string;
  EncryptedKey : ptr string;
  KeyPassphrase : ptr string;
  PIAEncPreset : ptr string;
  MSSFix : ptr Z;
  Interface : string;
  ProcessUser : string;
  Verbosity : ptr Z;
  Flags : slice string
}.

(** The zero value [OpenVPN{}]. *)
Definition OpenVPN_zero : OpenVPN :=
  mkOpenVPN "" None None None None None None None None None None None
            "" "" None None.

(** ** The helpers of gosettings *)

Module gosettings.

(** Modelled from the spec: the functions [MergeWithPointer],
    [MergeWithString] and [MergeWithSlice] of the gosettings library are
    missing.  "If receiver's field is absent, take other's value (which
    may itself be absent); receiver's already-present fields are
    untouched."  A pointer or slice taken from [other] is copied into a
    new cell, which has the same value. *)
Definition MergeWithPointer {T : Type} (existing other : ptr T) : ptr T :=
  match existing with
  | Some _ => existing
  | None => match other with
            | None => None
            | Some v => Some v
            end
  end.

Definition MergeWithString (existing other : string) : string :=
  if String.eqb existing "" then other else existing.

Definition MergeWithSlice {T : Type} (existing other : slice T) : slice T :=
  match existing with
  | Some _ => existing
  | None => match other with
            | None => None
            | Some l => Some l
            end
  end.

(** Modelled from the spec: the functions [OverrideWithPointer],
    [OverrideWithString] and [OverrideWithSlice] of the gosettings library
    are missing.  "For every field where other is not absent, replace
    receiver's value unconditionally." *)
Definition OverrideWithPointer {T : Type} (existing other : ptr T) : ptr T :=
  match other with
  | None => existing
  | Some v => Some v
  end.

Definition OverrideWithString (existing other : string) : string :=
  if String.eqb other "" then existing else other.

Definition OverrideWithSlice {T : Type} (existing other : slice T) : slice T :=
  match other with
  | None => existing
  | Some l => Some l
  end.

(** Modelled from the spec: the functions [DefaultPointer] and
    [DefaultString] of the gosettings library are missing.  "For every
    field still absent after merge/override, assign a default value." *)
Definition DefaultPointer {T : Type} (existing : ptr T) (defaultValue : T)
  : ptr T :=
  match existing with
  | Some _ => existing
  | None => Some defaultValue
  end.

Definition DefaultString (existing defaultValue : string) : string :=
  if String.eqb existing "" then defaultValue else existing.

(** Modelled from the spec: the functions [CopyPointer] and [CopySlice] of
    the gosettings library are missing.  The copy has the value of the
    original in cells of its own; values carry no cell identity here. *)
Definition CopyPointer {T : Type} (original : ptr T) : ptr T :=
  match original with
  | None => None
  | Some v => Some v
  end.

Definition CopySlice {T : Type} (original : slice T) : slice T :=
  match original with
  | None => None
  | Some l => Some l
  end.

(** Modelled from the spec: the function [ObfuscateKey] of the gosettings
    library is missing.  "Secret-bearing fields (keys, passwords) are
    never shown in plaintext: rendered as set/not set or as a redacted
    fixed-length token, never as the underlying value": the spec leaves
    open which text stands for which key, so what calls the function
    takes it as a parameter, a function from a key to the text that
    stands for it. *)
Definition Obfuscator : Type := string -> string.

End gosettings.

(** ** Regular expressions

    The patterns of the package are of the form [^body$]: [MatchString]
    then holds of a string when the whole string is in the language of the
    body.  Matching is by derivatives, one byte at a time. *)

Inductive regex : Type :=
| RNone
| REps
| RChar (c : ascii)
| RRange (lo hi : ascii)
| RAlt (r1 r2 : regex)
| RCat (r1 r2 : regex)
| RStar (r : regex).

Fixpoint nullable (r : regex) : bool :=
  match r with
  | RNone => false
  | REps => true
  | RChar _ => false
  | RRange _ _ => false
  | RAlt r1 r2 => nullable r1 || nullable r2
  | RCat r1 r2 => nullable r1 && nullable r2
  | RStar _ => true
  end.

Definition in_range (lo hi c : ascii) : bool :=
  (N_of_ascii lo <=? N_of_ascii c)%N && (N_of_ascii c <=? N_of_ascii hi)%N.

Fixpoint deriv (c : ascii) (r : regex) : regex :=
  match r with
  | RNone => RNone
  | REps => RNone
  | RChar d => if Ascii.eqb c d then REps else RNone
  | RRange lo hi => if in_range lo hi c then REps else RNone
  | RAlt r1 r2 => RAlt (deriv c r1) (deriv c r2)
  | RCat r1 r2 =>
      if nullable r1
      then RAlt (RCat (deriv c r1) r2) (deriv c r2)
      else RCat (deriv c r1) r2
  | RStar r1 => RCat (deriv c r1) (RStar r1)
  end.

Fixpoint matches (r : regex) (s : string) : bool :=
  match s with
  | EmptyString => nullable r
  | String c s' => matches (deriv c r) s'
  end.

(** A literal string. *)
Fixpoint RStr (s : string) : regex :=
  match s with
  | EmptyString => REps
  | String c s' => RCat (RChar c) (RStr s')
  end.

(** [r{n}] *)
Fixpoint RRepeat (n : nat) (r : regex) : regex :=
  match n with
  | O => REps
  | S n' => RCat r (RRepeat n' r)
  end.

(** [r+] *)
Definition RPlus (r : regex) : regex := RCat r (RStar r).

(** [[a-zA-Z0-9]] *)
Definition alnum : regex :=
  RAlt (RRange "a" "z") (RAlt (RRange "A" "Z") (RRange "0" "9")).

(** A compiled pattern [^body$], with the text it was compiled from, which
    is what [%s] prints. *)
Record Regexp : Type := mkRegexp {
  re_source : string;
  re_body : regex
}.

Definition MatchString (re : Regexp) (s : string) : bool :=
  matches (re_body re) s.

(** ** Standard base64

    [base64.StdEncoding.DecodeString]: carriage returns and line feeds are
    skipped wherever they are, the rest is read four characters at a
    time, padding is required and ends the input; the unused bits before
    a padding are not checked. *)

Module base64.

Definition in_alphabet (c : ascii) : bool :=
  in_range "A" "Z" c || in_range "a" "z" c || in_range "0" "9" c
  || Ascii.eqb c "+" || Ascii.eqb c "/".

Definition is_pad (c : ascii) : bool := Ascii.eqb c "=".

Definition is_newline (c : ascii) : bool :=
  Ascii.eqb c "010" || Ascii.eqb c "013".

Definition is_nil (l : list ascii) : bool :=
  match l with
  | [] => true
  | _ :: _ => false
  end.

(** The number of bytes the quanta of [src] decode to, or [None] on a
    corrupt input. *)
Fixpoint decodeQuanta (src : list ascii) : option nat :=
  match src with
  | [] => Some O
  | a :: b :: c :: d :: rest =>
      if in_alphabet a && in_alphabet b then
        if in_alphabet c then
          if in_alphabet d then
            match decodeQuanta rest with
            | Some n => Some (3 + n)%nat
            | None => None
            end
          else if is_pad d && is_nil rest then Some 2%nat else None
        else if is_pad c && is_pad d && is_nil rest then Some 1%nat else None
      else None
  | _ => None
  end.

(** The length of the decoded data, or [None] when [DecodeString] returns
    an error. *)
Definition DecodeString (s : string) : option nat :=
  decodeQuanta
    (filter (fun c => negb (is_newline c)) (list_ascii_of_string s)).

End base64.

(** ** Errors

    An error is what [errors.Is] can find in it, the sentinels of this
    package that it wraps, and its message.  An error of a library or of
    the operating system wraps none of them. *)

Inductive Sentinel : Type :=
| ErrOpenVPNVersionIsNotValid
| ErrOpenVPNUserIsEmpty
| ErrOpenVPNPasswordIsEmpty
| ErrFilepathMissing
| ErrMissingValue
| ErrOpenVPNKeyPassphraseIsEmpty
| ErrOpenVPNMSSFixIsTooHigh
| ErrOpenVPNInterfaceNotValid
| ErrOpenVPNVerbosityIsOutOfBounds.

Definition Sentinel_eqb (a b : Sentinel) : bool :=
  match a, b with
  | ErrOpenVPNVersionIsNotValid, ErrOpenVPNVersionIsNotValid
  | ErrOpenVPNUserIsEmpty, ErrOpenVPNUserIsEmpty
  | ErrOpenVPNPasswordIsEmpty, ErrOpenVPNPasswordIsEmpty
  | ErrFilepathMissing, ErrFilepathMissing
  | ErrMissingValue, ErrMissingValue
  | ErrOpenVPNKeyPassphraseIsEmpty, ErrOpenVPNKeyPassphraseIsEmpty
  | ErrOpenVPNMSSFixIsTooHigh, ErrOpenVPNMSSFixIsTooHigh
  | ErrOpenVPNInterfaceNotValid, ErrOpenVPNInterfaceNotValid
  | ErrOpenVPNVerbosityIsOutOfBounds, ErrOpenVPNVerbosityIsOutOfBounds => true
  | _, _ => false
  end.

Record error : Type := mkError {
  wraps : list Sentinel;
  Error : string
}.

(** [errors.Is(err, target)] for a sentinel [target]. *)
Definition errors_Is (err : error) (target : Sentinel) : bool :=
  existsb (Sentinel_eqb target) (wraps err).

(** An error made by a library: only its message is known. *)
Definition library_error (message : string) : error := mkError [] message.

(** [fmt.Errorf(prefix + "%w", err)] *)
Definition Errorf_w (prefix : string) (err : error) : error :=
  mkError (wraps err) (prefix ++ Error err).

(** [fmt.Errorf("%w" + suffix, err)], where the suffix holds no [%w]. *)
Definition Errorf_w_then (err : error) (suffix : string) : error :=
  mkError (wraps err) (Error err ++ suffix).

(** [fmt.Errorf("%w: %w", err1, err2)] *)
Definition Errorf_w_w (err1 err2 : error) : error :=
  mkError (wraps err1 ++ wraps err2) (Error err1 ++ ": " ++ Error err2).

(** ** Declarations of the program that the functions below use

    The constants of the packages [constants/openvpn], [constants/providers]
    and [presets], the pattern [regexpInterfaceName] and the messages of
    the sentinel errors are declared in files that are not at hand: they
    are taken as parameters. *)

Record Decls : Type := mkDecls {
  Openvpn25 : string;
  Openvpn26 : string;
  Custom : string;
  Airvpn : string;
  Cyberghost : string;
  Ivpn : string;
  Mullvad : string;
  PrivateInternetAccess : string;
  VPNSecure : string;
  VPNUnlimited : string;
  Wevpn : string;
  Strong : string;
  regexpInterfaceName : Regexp;
  sentinel_message : Sentinel -> string
}.

(** What the functions below get from outside the program: the file
    system, the messages of the errors that libraries make, and the
    address that the pointer [o.Verbosity] holds, which no value of the
    settings determines. *)
Record World : Type := mkWorld {
  (** the message of the error of [validate.FileExists], if any *)
  FileExists : string -> option string;
  (** the message of the error of [extract.New().Data], if any *)
  extractor_Data : string -> option string;
  (** the message of the error of [validate.IsOneOf] *)
  IsOneOf_message : string -> list string -> string;
  (** the message of the error of [base64.StdEncoding.DecodeString] *)
  CorruptInput_message : string -> string;
  (** the address in [o.Verbosity] *)
  Verbosity_address : Z
}.

(** [var ivpnAccountID = regexp.MustCompile(...)] *)
Definition ivpnAccountID : Regexp :=
  mkRegexp "^(i|ivpn)\-[a-zA-Z0-9]{4}\-[a-zA-Z0-9]{4}\-[a-zA-Z0-9]{4}$"
    (RCat (RAlt (RStr "i") (RStr "ivpn"))
    (RCat (RChar "-") (RCat (RRepeat 4 alnum)
    (RCat (RChar "-") (RCat (RRepeat 4 alnum)
    (RCat (RChar "-") (RRepeat 4 alnum))))))).

(** Modelled from the spec: the gotree library is missing.  A node of a
    tree has a text and child nodes in order; the settings are rendered
    "one line per field group, in a fixed declared order". *)
#[warnings="-register-all"]
Inductive Node : Type :=
| mkNode (value : string) (childs : list Node).

Module gotree.

Definition New (value : string) : Node := mkNode value [].

(** [node.Appendf(format, args...)] adds a leaf with the formatted text as
    the last child. *)
Definition Appendf (node : Node) (text : string) : Node :=
  match node with
  | mkNode value childs => mkNode value (childs ++ [New text])
  end.

Definition childs (node : Node) : list Node :=
  match node with
  | mkNode _ cs => cs
  end.

Definition value (node : Node) : string :=
  match node with
  | mkNode v _ => v
  end.

End gotree.

Section Settings.

Context (K : Decls) (W : World).

(** The error value of a sentinel, [errors.New(message)]. *)
Definition sentinel (s : Sentinel) : error :=
  mkError [s] (sentinel_message K s).

(** Modelled from the spec: the function [validate.IsOneOf] of the
    gosettings library is missing.  "Protocol version in {2.5, 2.6}": an
    error when [value] is none of the choices. *)
Definition validate_IsOneOf (value : string) (choices : list string)
  : option error :=
  if existsb (String.eqb value) choices then None
  else Some (library_error (IsOneOf_message W value choices)).

(** [base64.StdEncoding.DecodeString(s)], its error only. *)
Definition base64_error (s : string) : option error :=
  match base64.DecodeString s with
  | Some _ => None
  | None => Some (library_error (CorruptInput_message W s))
  end.

Definition validateOpenVPNConfigFilepath (isCustom : bool) (confFile : string)
  : option error :=
  if negb isCustom then None
  else if String.eqb confFile "" then
    Some (Errorf_w "" (sentinel ErrFilepathMissing))
  else
    match FileExists W confFile with
    | Some message => Some (library_error message)
    | None =>
        match extractor_Data W confFile with
        | Some message =>
            Some (Errorf_w
                    "extracting information from custom configuration file: "
                    (library_error message))
        | None => None
        end
    end.

Definition validateOpenVPNClientCertificate (vpnProvider clientCert : string)
  : option error :=
  if (String.eqb vpnProvider (Airvpn K)
      || String.eqb vpnProvider (Cyberghost K)
      || String.eqb vpnProvider (VPNSecure K)
      || String.eqb vpnProvider (VPNUnlimited K))
     && String.eqb clientCert ""
  then Some (Errorf_w "" (sentinel ErrMissingValue))
  else if String.eqb clientCert "" then None
  else base64_error clientCert.

Definition validateOpenVPNClientKey (vpnProvider clientKey : string)
  : option error :=
  if (String.eqb vpnProvider (Airvpn K)
      || String.eqb vpnProvider (Cyberghost K)
      || String.eqb vpnProvider (VPNUnlimited K)
      || String.eqb vpnProvider (Wevpn K))
     && String.eqb clientKey ""
  then Some (Errorf_w "" (sentinel ErrMissingValue))
  else if String.eqb clientKey "" then None
  else base64_error clientKey.

Definition validateOpenVPNEncryptedKey
  (vpnProvider encryptedPrivateKey : string) : option error :=
  if String.eqb vpnProvider (VPNSecure K) && String.eqb encryptedPrivateKey ""
  then Some (Errorf_w "" (sentinel ErrMissingValue))
  else if String.eqb encryptedPrivateKey "" then None
  else base64_error encryptedPrivateKey.

(** The local variables of [validate]. *)
Definition isCustom (vpnProvider : string) : bool :=
  String.eqb vpnProvider (Custom K).

Definition isUserRequired (vpnProvider : string) : bool :=
  negb (isCustom vpnProvider)
  && negb (String.eqb vpnProvider (Airvpn K))
  && negb (String.eqb vpnProvider (VPNSecure K)).

(** [a && b] and [a || b] evaluate [b] only when it decides the result. *)
Definition and_then (a : bool) (b : go bool) : go bool :=
  if a then b else Ret false.

Definition or_else (a : bool) (b : go bool) : go bool :=
  if a then Ret true else b.

Local Open Scope go_scope.

Definition passwordRequired (o : OpenVPN) (vpnProvider : string) : go bool :=
  and_then (isUserRequired vpnProvider)
    (or_else (negb (String.eqb vpnProvider (Ivpn K)))
       (user <- deref (User o) ;;
        Ret (negb (MatchString ivpnAccountID user)))).

Definition maxMSSFix : Z := 10000.

Definition validate (o : OpenVPN) (vpnProvider : string) : go (option error) :=
  match validate_IsOneOf (Version o) [Openvpn25 K; Openvpn26 K] with
  | Some err =>
      Ret (Some (Errorf_w_w (sentinel ErrOpenVPNVersionIsNotValid) err))
  | None =>
  userIsEmpty <- and_then (isUserRequired vpnProvider)
                   (user <- deref (User o) ;; Ret (String.eqb user "")) ;;
  if userIsEmpty then Ret (Some (Errorf_w "" (sentinel ErrOpenVPNUserIsEmpty)))
  else
  required <- passwordRequired o vpnProvider ;;
  passwordIsEmpty <- and_then required
                       (password <- deref (Password o) ;;
                        Ret (String.eqb password "")) ;;
  if passwordIsEmpty
  then Ret (Some (Errorf_w "" (sentinel ErrOpenVPNPasswordIsEmpty)))
  else
  confFile <- deref (ConfFile o) ;;
  match validateOpenVPNConfigFilepath (isCustom vpnProvider) confFile with
  | Some err => Ret (Some (Errorf_w "custom configuration file: " err))
  | None =>
  cert <- deref (Cert o) ;;
  match validateOpenVPNClientCertificate vpnProvider cert with
  | Some err => Ret (Some (Errorf_w "client certificate: " err))
  | None =>
  key <- deref (Key o) ;;
  match validateOpenVPNClientKey vpnProvider key with
  | Some err => Ret (Some (Errorf_w "client key: " err))
  | None =>
  encryptedKey <- deref (EncryptedKey o) ;;
  match validateOpenVPNEncryptedKey vpnProvider encryptedKey with
  | Some err => Ret (Some (Errorf_w "encrypted key: " err))
  | None =>
  passphraseIsEmpty <- and_then (negb (String.eqb encryptedKey ""))
                         (passphrase <- deref (KeyPassphrase o) ;;
                          Ret (String.eqb passphrase "")) ;;
  if passphraseIsEmpty
  then Ret (Some (Errorf_w "" (sentinel ErrOpenVPNKeyPassphraseIsEmpty)))
  else
  mssFix <- deref (MSSFix o) ;;
  if maxMSSFix <? mssFix
  then Ret (Some (Errorf_w_then (sentinel ErrOpenVPNMSSFixIsTooHigh)
                    (": " ++ fmt_d mssFix ++ " is over the maximum value of "
                     ++ fmt_d maxMSSFix)))
  else
  if negb (MatchString (regexpInterfaceName K) (Interface o))
  then Ret (Some (Errorf_w_then (sentinel ErrOpenVPNInterfaceNotValid)
                    (": '" ++ Interface o ++ "' does not match regex '"
                     ++ re_source (regexpInterfaceName K) ++ "'")))
  else
  verbosity <- deref (Verbosity o) ;;
  if (verbosity <? 0) || (6 <? verbosity)
  then Ret (Some (Errorf_w_then (sentinel ErrOpenVPNVerbosityIsOutOfBounds)
                    (": " ++ fmt_d (Verbosity_address W)
                     ++ " can only be between 0 and 5")))
  else Ret None
  end end end end end.

End Settings.

(** ** The resolution algebra of the OpenVPN settings *)

Definition copy (o : OpenVPN) : OpenVPN :=
  {| Version := Version o;
     User := gosettings.CopyPointer (User o);
     Password := gosettings.CopyPointer (Password o);
     ConfFile := gosettings.CopyPointer (ConfFile o);
     Ciphers := gosettings.CopySlice (Ciphers o);
     Auth := gosettings.CopyPointer (Auth o);
     Cert := gosettings.CopyPointer (Cert o);
     Key := gosettings.CopyPointer (Key o);
     EncryptedKey := gosettings.CopyPointer (EncryptedKey o);
     KeyPassphrase := gosettings.CopyPointer (KeyPassphrase o);
     PIAEncPreset := gosettings.CopyPointer (PIAEncPreset o);
     MSSFix := gosettings.CopyPointer (MSSFix o);
     Interface := Interface o;
     ProcessUser := ProcessUser o;
     Verbosity := gosettings.CopyPointer (Verbosity o);
     Flags := gosettings.CopySlice (Flags o) |}.

(** [o.mergeWith(other)]: the receiver after the call. *)
Definition mergeWith (o other : OpenVPN) : OpenVPN :=
  {| Version := gosettings.MergeWithString (Version o) (Version other);
     User := gosettings.MergeWithPointer (User o) (User other);
     Password := gosettings.MergeWithPointer (Password o) (Password other);
     ConfFile := gosettings.MergeWithPointer (ConfFile o) (ConfFile other);
     Ciphers := gosettings.MergeWithSlice (Ciphers o) (Ciphers other);
     Auth := gosettings.MergeWithPointer (Auth o) (Auth other);
     Cert := gosettings.MergeWithPointer (Cert o) (Cert other);
     Key := gosettings.MergeWithPointer (Key o) (Key other);
     EncryptedKey :=
       gosettings.MergeWithPointer (EncryptedKey o) (EncryptedKey other);
     KeyPassphrase :=
       gosettings.MergeWithPointer (KeyPassphrase o) (KeyPassphrase other);
     PIAEncPreset :=
       gosettings.MergeWithPointer (PIAEncPreset o) (PIAEncPreset other);
     MSSFix := gosettings.MergeWithPointer (MSSFix o) (MSSFix other);
     Interface := gosettings.MergeWithString (Interface o) (Interface other);
     ProcessUser :=
       gosettings.MergeWithString (ProcessUser o) (ProcessUser other);
     Verbosity := gosettings.MergeWithPointer (Verbosity o) (Verbosity other);
     Flags := gosettings.MergeWithSlice (Flags o) (Flags other) |}.

(** [o.overrideWith(other)]: the receiver after the call. *)
Definition overrideWith (o other : OpenVPN) : OpenVPN :=
  {| Version := gosettings.OverrideWithString (Version o) (Version other);
     User := gosettings.OverrideWithPointer (User o) (User other);
     Password := gosettings.OverrideWithPointer (Password o) (Password other);
     ConfFile := gosettings.OverrideWithPointer (ConfFile o) (ConfFile other);
     Ciphers := gosettings.OverrideWithSlice (Ciphers o) (Ciphers other);
     Auth := gosettings.OverrideWithPointer (Auth o) (Auth other);
     Cert := gosettings.OverrideWithPointer (Cert o) (Cert other);
     Key := gosettings.OverrideWithPointer (Key o) (Key other);
     EncryptedKey :=
       gosettings.OverrideWithPointer (EncryptedKey o) (EncryptedKey other);
     KeyPassphrase :=
       gosettings.OverrideWithPointer (KeyPassphrase o) (KeyPassphrase other);
     PIAEncPreset :=
       gosettings.OverrideWithPointer (PIAEncPreset o) (PIAEncPreset other);
     MSSFix := gosettings.OverrideWithPointer (MSSFix o) (MSSFix other);
     Interface :=
       gosettings.OverrideWithString (Interface o) (Interface other);
     ProcessUser :=
       gosettings.OverrideWithString (ProcessUser o) (ProcessUser other);
     Verbosity :=
       gosettings.OverrideWithPointer (Verbosity o) (Verbosity other);
     Flags := gosettings.OverrideWithSlice (Flags o) (Flags other) |}.

Section Defaults.

Context (K : Decls).

(** [o.setDefaults(vpnProvider)]: the receiver after the call. *)
Definition setDefaults (o : OpenVPN) (vpnProvider : string) : OpenVPN :=
  let defaultEncPreset :=
    if String.eqb vpnProvider (PrivateInternetAccess K) then Strong K
    else "" in
  {| Version := gosettings.DefaultString (Version o) (Openvpn25 K);
     User := gosettings.DefaultPointer (User o) "";
     Password :=
       if String.eqb vpnProvider (Mullvad K)
       then gosettings.DefaultPointer (Password o) "m"
       else gosettings.DefaultPointer (Password o) "";
     ConfFile := gosettings.DefaultPointer (ConfFile o) "";
     Ciphers := Ciphers o;
     Auth := gosettings.DefaultPointer (Auth o) "";
     Cert := gosettings.DefaultPointer (Cert o) "";
     Key := gosettings.DefaultPointer (Key o) "";
     EncryptedKey := gosettings.DefaultPointer (EncryptedKey o) "";
     KeyPassphrase := gosettings.DefaultPointer (KeyPassphrase o) "";
     PIAEncPreset := gosettings.DefaultPointer (PIAEncPreset o) defaultEncPreset;
     MSSFix := gosettings.DefaultPointer (MSSFix o) 0;
     Interface := gosettings.DefaultString (Interface o) "tun0";
     ProcessUser := gosettings.DefaultString (ProcessUser o) "root";
     Verbosity := gosettings.DefaultPointer (Verbosity o) 1;
     Flags := Flags o |}.

(** [o.WithDefaults(provider)] *)
Definition WithDefaults (o : OpenVPN) (provider : string) : OpenVPN :=
  setDefaults o provider.

End Defaults.

(** ** Rendering the OpenVPN settings *)

Local Open Scope go_scope.

(** [if cond { node.Appendf(text) }] *)
Definition Appendf_if (cond : bool) (node : Node) (text : string) : Node :=
  if cond then gotree.Appendf node text else node.

Definition toLinesNode (ObfuscateKey : gosettings.Obfuscator) (o : OpenVPN)
  : go Node :=
  let node := gotree.New "OpenVPN settings:" in
  let node := gotree.Appendf node ("OpenVPN version: " ++ Version o) in
  user <- deref (User o) ;;
  let node := gotree.Appendf node ("User: " ++ ObfuscateKey user) in
  password <- deref (Password o) ;;
  let node :=
    gotree.Appendf node ("Password: " ++ ObfuscateKey password) in
  confFile <- deref (ConfFile o) ;;
  let node := Appendf_if (negb (String.eqb confFile "")) node
                ("Custom configuration file: " ++ confFile) in
  let node := Appendf_if (0 <? len (Ciphers o))%nat node
                ("Ciphers: " ++ fmt_strings (Ciphers o)) in
  auth <- deref (Auth o) ;;
  let node := Appendf_if (negb (String.eqb auth "")) node ("Auth: " ++ auth) in
  cert <- deref (Cert o) ;;
  let node := Appendf_if (negb (String.eqb cert "")) node
                ("Client crt: " ++ ObfuscateKey cert) in
  key <- deref (Key o) ;;
  let node := Appendf_if (negb (String.eqb key "")) node
                ("Client key: " ++ ObfuscateKey key) in
  encryptedKey <- deref (EncryptedKey o) ;;
  node <- (if negb (String.eqb encryptedKey "")
           then
             passphrase <- deref (KeyPassphrase o) ;;
             Ret (gotree.Appendf node
                    ("Encrypted key: " ++ ObfuscateKey encryptedKey
                     ++ " (key passhrapse "
                     ++ ObfuscateKey passphrase ++ ")"))
           else Ret node) ;;
  preset <- deref (PIAEncPreset o) ;;
  let node := Appendf_if (negb (String.eqb preset "")) node
                ("Private Internet Access encryption preset: " ++ preset) in
  mssFix <- deref (MSSFix o) ;;
  let node := Appendf_if (0 <? mssFix) node ("MSS Fix: " ++ fmt_d mssFix) in
  let node := Appendf_if (negb (String.eqb (Interface o) "")) node
                ("Network interface: " ++ Interface o) in
  let node := gotree.Appendf node ("Run OpenVPN as: " ++ ProcessUser o) in
  verbosity <- deref (Verbosity o) ;;
  let node := gotree.Appendf node ("Verbosity level: " ++ fmt_d verbosity) in
  let node := Appendf_if (0 <? len (Flags o))%nat node
                ("Flags: " ++ fmt_strings (Flags o)) in
  Ret node.

(** The texts of the lines under the title, in order. *)
Definition field_lines (node : Node) : list string :=
  map gotree.value (gotree.childs node).

(** ** The updater settings *)

Module updater.

(** A [time.Duration] is a number of nanoseconds. *)
Definition Duration : Type := Z.

Record Updater : Type := mkUpdater {
  Period : Duration;
  DNSAddress : string;
  Cyberghost : bool;
  Mullvad : bool;
  Nordvpn : bool;
  PIA : bool;
  Privado : bool;
  Purevpn : bool;
  Surfshark : bool;
  Torguard : bool;
  Vyprvpn : bool;
  Windscribe : bool;
  Stdout : bool;
  CLI : bool
}.

(** The zero value [Updater{}]. *)
Definition Updater_zero : Updater :=
  mkUpdater 0 "" false false false false false false false false false false
            false false.

(** The interface of the environment reader [r.env] of the params
    library: [Duration(key, params.Default(d))] gives a duration and an
    error. *)
Class Env : Type := {
  env_Duration : string -> string -> Duration * option error
}.

Record reader : Type := mkReader {
  env : Env
}.

Section Lines.

(** The constants [indent] and [lastIndent] and the method
    [Duration.String] are declared elsewhere. *)
Context (indent lastIndent : string) (Duration_String : Duration -> string).

Definition lines (settings : Updater) : list string :=
  if Period settings =? 0 then []
  else
    let lines := ([] ++ [(lastIndent ++ "Updater:")%string])%list in
    let lines :=
      (lines ++ [(indent ++ lastIndent ++ "Period: every "
                  ++ Duration_String (Period settings))%string])%list in
    lines.

Definition String (settings : Updater) : string :=
  join newline (lines settings).

End Lines.

(** [settings.read(r)]: the settings after the call, and the error. *)
Definition read (settings : Updater) (r : reader) : Updater * option error :=
  let settings :=
    {| Period := Period settings;
       DNSAddress := "1.1.1.1";
       Cyberghost := true;
       Mullvad := true;
       Nordvpn := true;
       PIA := true;
       Privado := Privado settings;
       Purevpn := true;
       Surfshark := true;
       Torguard := true;
       Vyprvpn := true;
       Windscribe := true;
       Stdout := false;
       CLI := false |} in
  let (period, err) := @env_Duration (env r) "UPDATER_PERIOD" "0" in
  let settings :=
    {| Period := period;
       DNSAddress := DNSAddress settings;
       Cyberghost := Cyberghost settings;
       Mullvad := Mullvad settings;
       Nordvpn := Nordvpn settings;
       PIA := PIA settings;
       Privado := Privado settings;
       Purevpn := Purevpn settings;
       Surfshark := Surfshark settings;
       Torguard := Torguard settings;
       Vyprvpn := Vyprvpn settings;
       Windscribe := Windscribe settings;
       Stdout := Stdout settings;
       CLI := CLI settings |} in
  match err with
  | Some e => (settings, Some e)
  | None => (settings, None)
  end.

End updater.

(** ** The WireGuard settings and their check *)

Module wireguard.

(** A [net.IP] is a slice of bytes, nil when absent. *)
Definition IP : Type := slice Z.

Record IPNet : Type := mkIPNet {
  net_IP : IP;
  Mask : slice Z
}.

Record UDPAddr : Type := mkUDPAddr {
  addr_IP : IP;
  Port : Z
}.

Record Settings : Type := mkSettings {
  InterfaceName : string;
  PrivateKey : string;
  PublicKey : string;
  PreSharedKey : string;
  Endpoint : ptr UDPAddr;
  FirewallMark : Z;
  RulePriority : Z;
  AllowedIPs : list (ptr IPNet);
  Addresses : list (ptr IPNet);
  IPv6 : ptr bool;
  Implementation : string
}.

(** The zero value [Settings{}]. *)
Definition Settings_zero : Settings :=
  mkSettings "" "" "" "" None 0 0 [] [] None "".

Inductive Sentinel : Type :=
| ErrInterfaceNameInvalid
| ErrPrivateKeyMissing
| ErrPrivateKeyInvalid
| ErrPublicKeyMissing
| ErrPublicKeyInvalid
| ErrPreSharedKeyInvalid
| ErrEndpointMissing
| ErrEndpointIPMissing
| ErrEndpointPortMissing
| ErrAllowedIPsMissing
| ErrAllowedIPIsNil
| ErrAllowedIPIPIsNil
| ErrAllowedIPv6NotSupported
| ErrAddressMissing
| ErrAddressNil
| ErrAddressIPMissing
| ErrAddressMaskMissing
| ErrFirewallMarkMissing
| ErrImplementationInvalid.

(** An error of [Check]: the sentinel it wraps and its message. *)
Record error : Type := mkError {
  wrapped : Sentinel;
  message : string
}.

(** [ip.To4() == nil] for an address that is not nil: the address has
    neither 4 bytes nor the 16 bytes of an IPv4 address mapped in IPv6. *)
Definition isIPv6 (ip : list Z) : bool :=
  match ip with
  | [_; _; _; _] => false
  | [0; 0; 0; 0; 0; 0; 0; 0; 0; 0; 255; 255; _; _; _; _] => false
  | _ => true
  end.

(** [wgtypes.ParseKey]: a key is the standard base64 of 32 bytes. *)
Definition ParseKey_ok (key : string) : bool :=
  match base64.DecodeString key with
  | Some n => Nat.eqb n 32
  | None => false
  end.

(** Modelled from the spec: the pattern of the interface names of the
    file settings.go of the package is missing.  "Interface-name format
    (must match an interface-name grammar)"; the grammar is taken as the
    non-empty words of letters, digits and underscores, under which the
    names of the tests are judged as the tests expect. *)
Definition regexpInterfaceName : Regexp :=
  mkRegexp "^[a-zA-Z0-9_]+$" (RPlus (RAlt alnum (RChar "_"))).

(** Modelled from the spec: the enumeration of the implementations is
    missing.  "Implementation value one of a fixed enumeration"; the tests
    use auto and userspace as valid values. *)
Definition implementations : list string :=
  ["auto"; "kernelspace"; "userspace"].

Section Check.

(** [IPNet.String], the text of a network. *)
Context (IPNet_String : IPNet -> string).

Definition fail (s : Sentinel) (m : string) : option error :=
  Some (mkError s m).

(** The position of an entry in a list, for the messages: 1-based index
    and length. *)
Definition position (i n : nat) : string :=
  fmt_d (Z.of_nat (S i)) ++ " of " ++ fmt_d (Z.of_nat n).

Definition checkInterfaceName (s : Settings) : option error :=
  if MatchString regexpInterfaceName (InterfaceName s) then None
  else fail ErrInterfaceNameInvalid
         ("invalid interface name: " ++ InterfaceName s).

Definition checkPrivateKey (s : Settings) : option error :=
  if String.eqb (PrivateKey s) "" then
    fail ErrPrivateKeyMissing "private key is missing"
  else if ParseKey_ok (PrivateKey s) then None
  else fail ErrPrivateKeyInvalid "cannot parse private key".

Definition checkPublicKey (s : Settings) : option error :=
  if String.eqb (PublicKey s) "" then
    fail ErrPublicKeyMissing "public key is missing"
  else if ParseKey_ok (PublicKey s) then None
  else fail ErrPublicKeyInvalid ("cannot parse public key: " ++ PublicKey s).

Definition checkPreSharedKey (s : Settings) : option error :=
  if String.eqb (PreSharedKey s) "" then None
  else if ParseKey_ok (PreSharedKey s) then None
  else fail ErrPreSharedKeyInvalid "cannot parse pre-shared key".

Definition checkEndpoint (s : Settings) : option error :=
  match Endpoint s with
  | None => fail ErrEndpointMissing "endpoint is missing"
  | Some endpoint =>
      match addr_IP endpoint with
      | None => fail ErrEndpointIPMissing "endpoint IP is missing"
      | Some _ =>
          if Port endpoint =? 0
          then fail ErrEndpointPortMissing "endpoint port is missing"
          else None
      end
  end.

(** The first error over the entries of a list, each with its index. *)
Fixpoint firstError {A : Type} (check : nat -> A -> option error)
  (i : nat) (l : list A) : option error :=
  match l with
  | [] => None
  | x :: rest =>
      match check i x with
      | Some err => Some err
      | None => firstError check (S i) rest
      end
  end.

Definition checkAllowedIP (s : Settings) (i : nat) (allowedIP : ptr IPNet)
  : option error :=
  let n := length (AllowedIPs s) in
  match allowedIP with
  | None =>
      fail ErrAllowedIPIsNil
        ("allowed IP is nil: for allowed IP " ++ position i n)
  | Some ipNet =>
      match net_IP ipNet with
      | None =>
          fail ErrAllowedIPIPIsNil
            ("allowed IP IP field is nil: for allowed IP " ++ position i n)
      | Some ip =>
          if isIPv6 ip
             && negb (match IPv6 s with Some true => true | _ => false end)
          then fail ErrAllowedIPv6NotSupported
                 ("allowed IPv6 address not supported: for allowed IP "
                  ++ IPNet_String ipNet)
          else None
      end
  end.

Definition checkAllowedIPs (s : Settings) : option error :=
  match AllowedIPs s with
  | [] => fail ErrAllowedIPsMissing "allowed IPs are missing"
  | _ => firstError (checkAllowedIP s) 0 (AllowedIPs s)
  end.

Definition checkAddress (s : Settings) (i : nat) (address : ptr IPNet)
  : option error :=
  let n := length (Addresses s) in
  match address with
  | None =>
      fail ErrAddressNil ("interface address is nil: for address "
                          ++ position i n)
  | Some ipNet =>
      match net_IP ipNet, Mask ipNet with
      | None, _ =>
          fail ErrAddressIPMissing
            ("interface address IP is missing: for address " ++ position i n)
      | Some _, None =>
          fail ErrAddressMaskMissing
            ("interface address mask is missing: for address "
             ++ position i n)
      | Some _, Some _ => None
      end
  end.

Definition checkAddresses (s : Settings) : option error :=
  match Addresses s with
  | [] => fail ErrAddressMissing "interface address is missing"
  | _ => firstError (checkAddress s) 0 (Addresses s)
  end.

Definition checkFirewallMark (s : Settings) : option error :=
  if FirewallMark s =? 0
  then fail ErrFirewallMarkMissing "firewall mark is missing"
  else None.

Definition checkImplementation (s : Settings) : option error :=
  if existsb (String.eqb (Implementation s)) implementations then None
  else fail ErrImplementationInvalid
         ("invalid implementation: " ++ Implementation s).

(** The checks, in the order in which they run. *)
Definition checks : list (Settings -> option error) :=
  [ checkInterfaceName; checkPrivateKey; checkPublicKey; checkPreSharedKey;
    checkEndpoint; checkAllowedIPs; checkAddresses; checkFirewallMark;
    checkImplementation ].

(** The error of the first check of a list that fails. *)
Fixpoint firstFailure (cs : list (Settings -> option error)) (s : Settings)
  : option error :=
  match cs with
  | [] => None
  | c :: rest =>
      match c s with
      | Some err => Some err
      | None => firstFailure rest s
      end
  end.

(** Modelled from the spec: the method [Settings.Check] of the file
    settings.go of the package is missing.  "Runs an ordered sequence of
    checks; returns on the first failing check (fail-fast, not error
    aggregation) wrapping a distinct sentinel error kind with a
    human-readable message"; the checks are those the spec lists for
    WireGuard, in its order, with the messages of the tests. *)
Definition Check (s : Settings) : option error := firstFailure checks s.

End Check.

(** ** Rendering the WireGuard settings *)

Record ToLinesSettings : Type := mkToLinesSettings {
  Indent : ptr string;
  FieldPrefix : ptr string;
  LastFieldPrefix : ptr string
}.

(** Modelled from the spec: the method [ToLinesSettings.setDefaults] of
    the file settings.go of the package is missing.  "Every line except
    the last uses a branch prefix, the last uses a leaf prefix,
    customizable via a style configuration"; the prefixes are those of
    the test of the method, the indentation the one of the tests of
    [ToLines], "4-space indentation". *)
Definition ToLinesSettings_setDefaults (settings : ToLinesSettings)
  : ToLinesSettings :=
  {| Indent := gosettings.DefaultPointer (Indent settings) "    ";
     FieldPrefix := gosettings.DefaultPointer (FieldPrefix settings) "├── ";
     LastFieldPrefix :=
       gosettings.DefaultPointer (LastFieldPrefix settings) "└── " |}.

Section ToLines.

(** [UDPAddr.String] and [IPNet.String], the texts of an endpoint and of a
    network. *)
Context (UDPAddr_String : UDPAddr -> string) (IPNet_String : IPNet -> string).

(** The text of a pointer to a network; the one of the nil pointer is
    [<nil>]. *)
Definition address_text (address : ptr IPNet) : string :=
  match address with
  | Some ipNet => IPNet_String ipNet
  | None => "<nil>"
  end.

(** The lines of the addresses: each under the indentation, the last with
    the prefix of the last field. *)
Fixpoint address_lines (indent fieldPrefix lastFieldPrefix : string)
  (addresses : list (ptr IPNet)) : list string :=
  match addresses with
  | [] => []
  | [address] => [indent ++ lastFieldPrefix ++ address_text address]
  | address :: rest =>
      (indent ++ fieldPrefix ++ address_text address)
      :: address_lines indent fieldPrefix lastFieldPrefix rest
  end.

Local Open Scope go_scope.

(** Modelled from the spec: the method [Settings.ToLines] of the file
    settings.go of the package is missing.  "Renders one line per field
    group, in a fixed declared order"; "secret-bearing fields (keys,
    passwords) are never shown in plaintext: rendered as set/not set";
    the fields, their order, their texts and the fields that have no line
    when empty are those of the tests of the method: the private key and
    the pre-shared key are rendered as set or not set, the public key as
    it is. *)
Definition ToLines (s : Settings) (settings : ToLinesSettings)
  : go (list string) :=
  let settings := ToLinesSettings_setDefaults settings in
  indent <- deref (Indent settings) ;;
  fieldPrefix <- deref (FieldPrefix settings) ;;
  lastFieldPrefix <- deref (LastFieldPrefix settings) ;;
  let lines := [fieldPrefix ++ "Interface name: " ++ InterfaceName s] in
  let lines :=
    app lines [fieldPrefix ++ "Private key: "
              ++ (if String.eqb (PrivateKey s) "" then "not set"
                  else "set")] in
  let lines :=
    if String.eqb (PublicKey s) "" then lines
    else app lines [fieldPrefix ++ "PublicKey: " ++ PublicKey s] in
  let lines :=
    app lines [fieldPrefix ++ "Pre shared key: "
              ++ (if String.eqb (PreSharedKey s) "" then "not set"
                  else "set")] in
  let lines :=
    app lines [fieldPrefix ++ "Endpoint: "
              ++ match Endpoint s with
                 | Some endpoint => UDPAddr_String endpoint
                 | None => "not set"
                 end] in
  ipv6 <- deref (IPv6 s) ;;
  let lines :=
    app lines [fieldPrefix ++ "IPv6: "
              ++ (if ipv6 : bool then "enabled" else "disabled")] in
  let lines :=
    if FirewallMark s =? 0 then lines
    else app lines [fieldPrefix ++ "Firewall mark: "
                   ++ fmt_d (FirewallMark s)] in
  let lines :=
    if RulePriority s =? 0 then lines
    else app lines [fieldPrefix ++ "Rule priority: "
                   ++ fmt_d (RulePriority s)] in
  let lines :=
    app lines [fieldPrefix ++ "Implementation: " ++ Implementation s] in
  match Addresses s with
  | [] => Ret (app lines [lastFieldPrefix ++ "Addresses: not set"])
  | addresses =>
      Ret (app (app lines [lastFieldPrefix ++ "Addresses:"])
             (address_lines indent fieldPrefix lastFieldPrefix addresses))
  end.

(** Modelled from the spec: the method [Settings.String] of the file
    settings.go of the package is missing.  The lines of the default
    style, one under the other, as the test of the method shows. *)
Definition String (s : Settings) : go string :=
  lines <- ToLines s (mkToLinesSettings None None None) ;;
  Ret (join newline lines).

End ToLines.

(** Values of the tests of [Check] and of [ToLines]. *)

(** The texts of the IPv4 addresses, endpoints and networks. *)
Definition sample_IP_String (ip : IP) : string :=
  match ip with
  | Some [a; b; c; d]
  | Some [0; 0; 0; 0; 0; 0; 0; 0; 0; 0; 255; 255; a; b; c; d] =>
      fmt_d a ++ "." ++ fmt_d b ++ "." ++ fmt_d c ++ "." ++ fmt_d d
  | _ => "?"
  end.

(** The number of the bits of a mask that are set. *)
Definition ones (mask : slice Z) : Z :=
  match mask with
  | Some bytes =>
      fold_right
        (fun byte n =>
           n + fold_right
                 (fun bit m => m + (if Z.testbit byte bit then 1 else 0))
                 0 [0; 1; 2; 3; 4; 5; 6; 7])
        0 bytes
  | None => 0
  end.

Definition sample_UDPAddr_String (address : UDPAddr) : string :=
  sample_IP_String (addr_IP address) ++ ":" ++ fmt_d (Port address).

Definition sample_IPNet_String (ipNet : IPNet) : string :=
  sample_IP_String (net_IP ipNet) ++ "/" ++ fmt_d (ones (Mask ipNet)).



Definition validKey1 : string := "oMNSf/zJ0pt1ciy+qIRk8Rlyfs9accwuRLnKd85Yl1Q=".
Definition validKey2 : string := "aPjc9US5ICB30D1P4glR9tO7bkB2Ga+KZiFqnoypBHk=".

(** [net.IPv4(a, b, c, d)] *)
Definition IPv4 (a b c d : Z) : IP :=
  Some [0; 0; 0; 0; 0; 0; 0; 0; 0; 0; 255; 255; a; b; c; d].

(** [allIPv6()], the network [::/0]. *)
Definition allIPv6 : IPNet :=
  mkIPNet (Some (repeat 0 16)) (Some (repeat 0 16)).

Definition no_text (n : IPNet) : string := "::/0".

End wireguard.

(** ** The fields of the OpenVPN settings, one by one *)

Inductive Field : Type :=
| FVersion | FUser | FPassword | FConfFile | FCiphers | FAuth | FCert | FKey
| FEncryptedKey | FKeyPassphrase | FPIAEncPreset | FMSSFix | FInterface
| FProcessUser | FVerbosity | FFlags.

(** The value of a field, with its Go type. *)
Inductive FieldValue : Type :=
| VString (s : string)
| VStringPtr (p : ptr string)
| VStrings (s : slice string)
| VIntPtr (p : ptr Z).

Definition field (f : Field) (o : OpenVPN) : FieldValue :=
  match f with
  | FVersion => VString (Version o)
  | FUser => VStringPtr (User o)
  | FPassword => VStringPtr (Password o)
  | FConfFile => VStringPtr (ConfFile o)
  | FCiphers => VStrings (Ciphers o)
  | FAuth => VStringPtr (Auth o)
  | FCert => VStringPtr (Cert o)
  | FKey => VStringPtr (Key o)
  | FEncryptedKey => VStringPtr (EncryptedKey o)
  | FKeyPassphrase => VStringPtr (KeyPassphrase o)
  | FPIAEncPreset => VStringPtr (PIAEncPreset o)
  | FMSSFix => VIntPtr (MSSFix o)
  | FInterface => VString (Interface o)
  | FProcessUser => VString (ProcessUser o)
  | FVerbosity => VIntPtr (Verbosity o)
  | FFlags => VStrings (Flags o)
  end.

Definition is_nil {T : Type} (p : option T) : bool :=
  match p with
  | None => true
  | Some _ => false
  end.

(** A field is present when its pointer or slice is not nil, or its string
    is not empty. *)
Definition present (v : FieldValue) : bool :=
  match v with
  | VString s => negb (String.eqb s "")
  | VStringPtr p => negb (is_nil p)
  | VStrings s => negb (is_nil s)
  | VIntPtr p => negb (is_nil p)
  end.

(** The fields of pointer type. *)
Definition pointer_fields : list Field :=
  [ FUser; FPassword; FConfFile; FAuth; FCert; FKey; FEncryptedKey;
    FKeyPassphrase; FPIAEncPreset; FMSSFix; FVerbosity ].

(** ** One assignment of the declarations

    Values for the constants and for the messages of the sentinels, to run
    the functions on inputs. *)

Definition sample_message (s : Sentinel) : string :=
  match s with
  | ErrOpenVPNVersionIsNotValid => "version is not valid"
  | ErrOpenVPNUserIsEmpty => "user is empty"
  | ErrOpenVPNPasswordIsEmpty => "password is empty"
  | ErrFilepathMissing => "filepath is missing"
  | ErrMissingValue => "missing value"
  | ErrOpenVPNKeyPassphraseIsEmpty => "key passphrase is empty"
  | ErrOpenVPNMSSFixIsTooHigh => "mssfix option value is too high"
  | ErrOpenVPNInterfaceNotValid => "interface name is not valid"
  | ErrOpenVPNVerbosityIsOutOfBounds => "verbosity value is out of bounds"
  end.

Definition sample_decls : Decls :=
  {| Openvpn25 := "2.5";
     Openvpn26 := "2.6";
     Custom := "custom";
     Airvpn := "airvpn";
     Cyberghost := "cyberghost";
     Ivpn := "ivpn";
     Mullvad := "mullvad";
     PrivateInternetAccess := "private internet access";
     VPNSecure := "vpnsecure";
     VPNUnlimited := "vpn unlimited";
     Wevpn := "wevpn";
     Strong := "strong";
     regexpInterfaceName :=
       mkRegexp "^[a-zA-Z0-9_]+$" (RPlus (RAlt alnum (RChar "_")));
     sentinel_message := sample_message |}.

(** A world in which every file exists and parses. *)
Definition sample_world : World :=
  {| FileExists := fun _ => None;
     extractor_Data := fun _ => None;
     IsOneOf_message := fun value choices =>
       "value is not one of the possible choices: " ++ value
       ++ " must be one of " ++ join ", " choices;
     CorruptInput_message := fun _ => "illegal base64 data";
     Verbosity_address := 824633802952 |}.

(** Settings that pass the validation for the provider mullvad. *)
Definition sample_settings : OpenVPN :=
  {| Version := "2.5";
     User := Some "jdoe";
     Password := Some "m";
     ConfFile := Some "";
     Ciphers := None;
     Auth := Some "";
     Cert := Some "";
     Key := Some "";
     EncryptedKey := Some "";
     KeyPassphrase := Some "";
     PIAEncPreset := Some "";
     MSSFix := Some 0;
     Interface := "tun0";
     ProcessUser := "root";
     Verbosity := Some 1;
     Flags := None |}.

(** A rendering of the keys, to run the functions on inputs: the empty
    key as not set, a short key as set, and a long key as the redacted
    token of nine characters made of its first three and its last three
    characters around three dots.  The library weighs a key before it
    shows its ends; here a key is long from 32 characters on. *)
Definition sample_ObfuscateKey : gosettings.Obfuscator :=
  fun key =>
    if String.eqb key "" then "[not set]"
    else if (String.length key <? 32)%nat then "[set]"
    else substring 0 3 key ++ "..."
         ++ substring (String.length key - 3) 3 key.


(** ** Notions that the properties below are stated with *)

(** Every field of pointer type holds a pointer that is not nil. *)
Definition pointers_set (o : OpenVPN) : bool :=
  forallb (fun f => present (field f o)) pointer_fields.

(** The outcome of a validation is an error that wraps the sentinel. *)
Definition fails_with (r : go (option error)) (target : Sentinel) : bool :=
  match r with
  | Ret (Some err) => errors_Is err target
  | Ret None => false
  | NilDeref => false
  end.

(** The settings with another pointer in [Verbosity]. *)
Definition set_Verbosity (o : OpenVPN) (verbosity : ptr Z) : OpenVPN :=
  {| Version := Version o;
     User := User o;
     Password := Password o;
     ConfFile := ConfFile o;
     Ciphers := Ciphers o;
     Auth := Auth o;
     Cert := Cert o;
     Key := Key o;
     EncryptedKey := EncryptedKey o;
     KeyPassphrase := KeyPassphrase o;
     PIAEncPreset := PIAEncPreset o;
     MSSFix := MSSFix o;
     Interface := Interface o;
     ProcessUser := ProcessUser o;
     Verbosity := verbosity;
     Flags := Flags o |}.

(** A letter or a digit. *)
Definition is_alnum (c : ascii) : bool :=
  in_range "a" "z" c || in_range "A" "Z" c || in_range "0" "9" c.

(** A group of four letters or digits. *)
Definition is_group (g : string) : bool :=
  match g with
  | String a (String b (String c (String d EmptyString))) =>
      is_alnum a && is_alnum b && is_alnum c && is_alnum d
  | _ => false
  end.

(** The providers for which a client certificate is required. *)
Definition certificate_providers (K : Decls) : list string :=
  [Airvpn K; Cyberghost K; VPNSecure K; VPNUnlimited K].







(** The lines of the rendered settings, under the title. *)
Definition rendered (ObfuscateKey : gosettings.Obfuscator) (o : OpenVPN)
  : go (list string) :=
  bind (toLinesNode ObfuscateKey o) (fun node => Ret (field_lines node)).

(** The line of a field that is rendered when the condition holds. *)
Definition line_if (cond : bool) (text : string) : list string :=
  if cond then [text] else [].

(** One line when the condition holds, none otherwise. *)
Definition shown (cond : bool) : nat := if cond then 1%nat else 0%nat.

(** The settings with another pointer in [ConfFile]. *)
Definition set_ConfFile (o : OpenVPN) (confFile : ptr string) : OpenVPN :=
  {| Version := Version o;
     User := User o;
     Password := Password o;
     ConfFile := confFile;
     Ciphers := Ciphers o;
     Auth := Auth o;
     Cert := Cert o;
     Key := Key o;
     EncryptedKey := EncryptedKey o;
     KeyPassphrase := KeyPassphrase o;
     PIAEncPreset := PIAEncPreset o;
     MSSFix := MSSFix o;
     Interface := Interface o;
     ProcessUser := ProcessUser o;
     Verbosity := Verbosity o;
     Flags := Flags o |}.

(** The settings with other pointers in [User] and [Password]. *)
Definition set_credentials (o : OpenVPN) (user password : ptr string)
  : OpenVPN :=
  {| Version := Version o;
     User := user;
     Password := password;
     ConfFile := ConfFile o;
     Ciphers := Ciphers o;
     Auth := Auth o;
     Cert := Cert o;
     Key := Key o;
     EncryptedKey := EncryptedKey o;
     KeyPassphrase := KeyPassphrase o;
     PIAEncPreset := PIAEncPreset o;
     MSSFix := MSSFix o;
     Interface := Interface o;
     ProcessUser := ProcessUser o;
     Verbosity := Verbosity o;
     Flags := Flags o |}.

(** An environment in which [UPDATER_PERIOD] is not set: the default
    gives the duration 0. *)
Definition sample_reader : updater.reader :=
  updater.mkReader {| updater.env_Duration := fun _ _ => (0, None) |}.

(** ** Notions for the properties of the rest of the code *)

(** The providers for which a client key is required. *)
Definition key_providers (K : Decls) : list string :=
  [Airvpn K; Cyberghost K; VPNUnlimited K; Wevpn K].

(** A blob that is empty or is standard base64. *)
Definition blob_ok (blob : string) : Prop :=
  blob <> "" -> base64.DecodeString blob <> None.

(** What [validate] asks of settings for a provider. *)
Definition accepted (K : Decls) (W : World) (o : OpenVPN) (p : string) : Prop :=
  In (Version o) [Openvpn25 K; Openvpn26 K]
  /\ (isUserRequired K p = true ->
      exists user, User o = Some user /\ user <> "")
  /\ (passwordRequired K o p = Ret true ->
      exists password, Password o = Some password /\ password <> "")
  /\ exists confFile cert key encryptedKey mssFix verbosity,
       ConfFile o = Some confFile /\ Cert o = Some cert /\ Key o = Some key
       /\ EncryptedKey o = Some encryptedKey /\ MSSFix o = Some mssFix
       /\ Verbosity o = Some verbosity
       /\ (p = Custom K ->
           confFile <> "" /\ FileExists W confFile = None
           /\ extractor_Data W confFile = None)
       /\ (In p (certificate_providers K) -> cert <> "") /\ blob_ok cert
       /\ (In p (key_providers K) -> key <> "") /\ blob_ok key
       /\ (p = VPNSecure K -> encryptedKey <> "") /\ blob_ok encryptedKey
       /\ (encryptedKey <> "" ->
           exists passphrase,
             KeyPassphrase o = Some passphrase /\ passphrase <> "")
       /\ mssFix <= 10000
       /\ MatchString (regexpInterfaceName K) (Interface o) = true
       /\ 0 <= verbosity <= 6.


(** What an error of [validate] that wraps a sentinel tells of the
    settings and of the provider. *)
Definition cause (K : Decls) (o : OpenVPN) (p : string) (s : Sentinel)
  : Prop :=
  match s with
  | ErrOpenVPNVersionIsNotValid =>
      ~ In (Version o) [Openvpn25 K; Openvpn26 K]
  | ErrOpenVPNUserIsEmpty =>
      isUserRequired K p = true /\ User o = Some ""
  | ErrOpenVPNPasswordIsEmpty =>
      passwordRequired K o p = Ret true /\ Password o = Some ""
  | ErrFilepathMissing =>
      p = Custom K /\ ConfFile o = Some ""
  | ErrMissingValue =>
      (In p (certificate_providers K) /\ Cert o = Some "")
      \/ (In p (key_providers K) /\ Key o = Some "")
      \/ (p = VPNSecure K /\ EncryptedKey o = Some "")
  | ErrOpenVPNKeyPassphraseIsEmpty =>
      (exists encryptedKey,
          EncryptedKey o = Some encryptedKey /\ encryptedKey <> "")
      /\ KeyPassphrase o = Some ""
  | ErrOpenVPNMSSFixIsTooHigh =>
      exists mssFix, MSSFix o = Some mssFix /\ 10000 < mssFix
  | ErrOpenVPNInterfaceNotValid =>
      MatchString (regexpInterfaceName K) (Interface o) = false
  | ErrOpenVPNVerbosityIsOutOfBounds =>
      exists verbosity,
        Verbosity o = Some verbosity /\ (verbosity < 0 \/ 6 < verbosity)
  end.

(** The settings with another pointer in [MSSFix]. *)
Definition set_MSSFix (o : OpenVPN) (mssFix : ptr Z) : OpenVPN :=
  {| Version := Version o;
     User := User o;
     Password := Password o;
     ConfFile := ConfFile o;
     Ciphers := Ciphers o;
     Auth := Auth o;
     Cert := Cert o;
     Key := Key o;
     EncryptedKey := EncryptedKey o;
     KeyPassphrase := KeyPassphrase o;
     PIAEncPreset := PIAEncPreset o;
     MSSFix := mssFix;
     Interface := Interface o;
     ProcessUser := ProcessUser o;
     Verbosity := Verbosity o;
     Flags := Flags o |}.

(** The world with another file system. *)
Definition with_files (W : World)
  (fileExists data : string -> option string) : World :=
  {| FileExists := fileExists;
     extractor_Data := data;
     IsOneOf_message := IsOneOf_message W;
     CorruptInput_message := CorruptInput_message W;
     Verbosity_address := Verbosity_address W |}.

(** The pointers that [toLinesNode] dereferences: all but the passphrase,
    which it dereferences when the encrypted key is not empty. *)
Definition renderable (o : OpenVPN) : bool :=
  negb (is_nil (User o)) && negb (is_nil (Password o))
  && negb (is_nil (ConfFile o)) && negb (is_nil (Auth o))
  && negb (is_nil (Cert o)) && negb (is_nil (Key o))
  && match EncryptedKey o with
     | None => false
     | Some encryptedKey =>
         String.eqb encryptedKey "" || negb (is_nil (KeyPassphrase o))
     end
  && negb (is_nil (PIAEncPreset o)) && negb (is_nil (MSSFix o))
  && negb (is_nil (Verbosity o)).

(** ** Reading the settings from the environment *)

Module env.

(** [settings.ControlServer], the fields that are read. *)
Record ControlServer : Type := mkControlServer {
  Address : ptr string;
  Log : ptr bool
}.

(** The zero value [settings.ControlServer{}]. *)
Definition ControlServer_zero : ControlServer := mkControlServer None None.

(** What the readers call and is declared elsewhere: the method
    [getEnvWithRetro] of the source, which gives the key that was found
    with its value, the functions [envToCSV], [env.Get] and
    [binary.Validate], with the message of its error, and of the standard
    library [strings.TrimSpace] and [net.ParseCIDR], which gives an
    address and a network, or the message of an error. *)
Record Source : Type := mkSource {
  getEnvWithRetro : string -> list string -> string * string;
  envToCSV : string -> slice string;
  env_Get : string -> string;
  binary_Validate : string -> ptr bool * option string;
  TrimSpace : string -> string;
  ParseCIDR : string -> (wireguard.IP * wireguard.IPNet) + string
}.

Section Readers.

Context (s : Source).

Definition readControlServerLog : ptr bool * option error :=
  let value := env_Get s "HTTP_CONTROL_SERVER_LOG" in
  let (log, err) := binary_Validate s value in
  match err with
  | Some message =>
      (None,
       Some (Errorf_w "environment variable HTTP_CONTROL_SERVER_LOG: "
               (library_error message)))
  | None => (log, None)
  end.

Definition readControlServerAddress : ptr string :=
  let (key, value) :=
    getEnvWithRetro s "HTTP_CONTROL_SERVER_ADDRESS"
      ["CONTROL_SERVER_ADDRESS"] in
  if String.eqb value "" then None
  else if String.eqb key "HTTP_CONTROL_SERVER_ADDRESS" then Some value
  else Some (":" ++ value).

Definition readControlServer : ControlServer * option error :=
  let controlServer := ControlServer_zero in
  let (log, err) := readControlServerLog in
  let controlServer := mkControlServer (Address controlServer) log in
  match err with
  | Some e => (controlServer, Some e)
  | None =>
      let controlServer :=
        mkControlServer readControlServerAddress (Log controlServer) in
      (controlServer, None)
  end.

(** [strings.Split(s, ",")]: the pieces between the commas, one more
    than there are commas. *)
Fixpoint Split_comma (text : string) : list string :=
  match text with
  | EmptyString => [EmptyString]
  | String c rest =>
      if Ascii.eqb c ","
      then EmptyString :: Split_comma rest
      else match Split_comma rest with
           | piece :: pieces => String c piece :: pieces
           | [] => [String c EmptyString]
           end
  end.

(** [l[i] = x], for an index in the bounds of the list. *)
Fixpoint assign {A : Type} (l : list A) (i : nat) (x : A) : list A :=
  match l, i with
  | [], _ => []
  | _ :: rest, O => x :: rest
  | y :: rest, S i' => y :: assign rest i' x
  end.

(** [make([]net.IPNet, n)] *)
Definition make_IPNets (n : nat) : list wireguard.IPNet :=
  repeat (wireguard.mkIPNet None None) n.

(** The loop of [readWireguardAllowedIPs] and of [readWireguardAddresses],
    which differ in the name of the variable only: from the index [i] on,
    each string is trimmed and parsed, and the network with the address
    that was parsed is put at its index; the first error ends the loop. *)
Fixpoint parseCIDRs (key : string) (i : nat) (strings : list string)
  (networks : list wireguard.IPNet) : slice wireguard.IPNet * option error :=
  match strings with
  | [] => (Some networks, None)
  | addressString :: rest =>
      let addressString := TrimSpace s addressString in
      match ParseCIDR s addressString with
      | inr message =>
          (None,
           Some (Errorf_w ("environment variable " ++ key ++ ": ")
                   (library_error message)))
      | inl (ip, ipNet) =>
          let ipNet := wireguard.mkIPNet ip (wireguard.Mask ipNet) in
          parseCIDRs key (S i) rest (assign networks i ipNet)
      end
  end.

Definition readWireguardAllowedIPs : slice wireguard.IPNet * option error :=
  let allowedIPStrings := envToCSV s "WIREGUARD_ALLOWED_IPS" in
  if Nat.eqb (len allowedIPStrings) 0 then (None, None)
  else
    let strings := match allowedIPStrings with Some l => l | None => [] end in
    parseCIDRs "WIREGUARD_ALLOWED_IPS" 0 strings
      (make_IPNets (length strings)).

Definition readWireguardAddresses : slice wireguard.IPNet * option error :=
  let (key, addressesCSV) :=
    getEnvWithRetro s "WIREGUARD_ADDRESSES" ["WIREGUARD_ADDRESS"] in
  if String.eqb addressesCSV "" then (None, None)
  else
    let addressStrings := Split_comma addressesCSV in
    parseCIDRs key 0 addressStrings (make_IPNets (length addressStrings)).

End Readers.

End env.

(** The networks are those of the strings, one by one and in order: each
    string, trimmed, parses, and the network at its index has the address
    that was parsed and the mask of the network that was parsed. *)
Definition parsed_in_order (s : env.Source) (strings : list string)
  (networks : list wireguard.IPNet) : Prop :=
  length networks = length strings
  /\ forall (j : nat) (text : string),
       nth_error strings j = Some text ->
       exists ip ipNet,
         env.ParseCIDR s (env.TrimSpace s text) = inl (ip, ipNet)
         /\ nth_error networks j
            = Some (wireguard.mkIPNet ip (wireguard.Mask ipNet)).

(** The error is the one of the first string that does not parse, under
    the name of the variable. *)
Definition first_parse_error (s : env.Source) (key : string)
  (strings : list string) (err : error) : Prop :=
  exists (j : nat) (text message : string),
    nth_error strings j = Some text
    /\ env.ParseCIDR s (env.TrimSpace s text) = inr message
    /\ (forall (j' : nat) (text' : string),
          (j' < j)%nat -> nth_error strings j' = Some text' ->
          exists parsed,
            env.ParseCIDR s (env.TrimSpace s text') = inl parsed)
    /\ err = mkError []
               (("environment variable " ++ key ++ ": ") ++ message).

(** A source for the tests of the readers: the variables of a list, a
    parser that knows two networks, and a validation that knows on and
    off. *)
Definition sample_lookup (vars : list (string * string)) (key : string)
  : string :=
  match find (fun kv => String.eqb (fst kv) key) vars with
  | Some kv => snd kv
  | None => ""
  end.

Definition sample_source (vars : list (string * string)) : env.Source :=
  {| env.getEnvWithRetro := fun current retro =>
       match find (fun key => negb (String.eqb (sample_lookup vars key) ""))
               (current :: retro) with
       | Some key => (key, sample_lookup vars key)
       | None => (current, "")
       end;
     env.envToCSV := fun key =>
       if String.eqb (sample_lookup vars key) "" then None
       else Some (env.Split_comma (sample_lookup vars key));
     env.env_Get := sample_lookup vars;
     env.binary_Validate := fun value =>
       if String.eqb value "" then (None, None)
       else if String.eqb value "on" then (Some true, None)
       else if String.eqb value "off" then (Some false, None)
       else (None, Some ("value " ++ value ++ " is not on or off"));
     env.TrimSpace := fun text =>
       match text with
       | String " " rest => rest
       | _ => text
       end;
     env.ParseCIDR := fun text =>
       if String.eqb text "10.0.0.1/24"
       then inl (Some [10; 0; 0; 1],
                 wireguard.mkIPNet (Some [10; 0; 0; 0])
                   (Some [255; 255; 255; 0]))
       else if String.eqb text "10.0.1.7/32"
       then inl (Some [10; 0; 1; 7],
                 wireguard.mkIPNet (Some [10; 0; 1; 7])
                   (Some [255; 255; 255; 255]))
       else inr ("invalid CIDR address: " ++ text) |}.

(** * Properties *)

(** ** Matching by derivatives *)

Lemma matches_RNone (s : string) : matches RNone s = false.
Proof. induction s as [|c s IH]; [reflexivity | exact IH]. Qed.

Lemma matches_REps (s : string) : matches REps s = true <-> s = "".
Proof.
  destruct s as [|c s]; cbn.
  - tauto.
  - rewrite matches_RNone. split; discriminate.
Qed.

Lemma matches_RAlt (r1 r2 : regex) (s : string) :
  matches (RAlt r1 r2) s = matches r1 s || matches r2 s.
Proof.
  revert r1 r2. induction s as [|c s IH]; intros r1 r2; cbn.
  - reflexivity.
  - apply IH.
Qed.

Lemma matches_RChar (d : ascii) (s : string) :
  matches (RChar d) s = true <-> s = String d "".
Proof.
  destruct s as [|c s]; cbn.
  - split; discriminate.
  - destruct (Ascii.eqb_spec c d) as [->|Hne].
    + rewrite matches_REps. split; [intros ->; reflexivity | congruence].
    + rewrite matches_RNone. split; [discriminate | congruence].
Qed.

Lemma matches_RRange (lo hi : ascii) (s : string) :
  matches (RRange lo hi) s = true
  <-> exists c, s = String c "" /\ in_range lo hi c = true.
Proof.
  destruct s as [|c s]; cbn.
  - split; [discriminate | intros (c & H & _); discriminate].
  - destruct (in_range lo hi c) eqn:Hc.
    + rewrite matches_REps. split.
      * intros ->. exists c. auto.
      * intros (c' & [= -> ->] & _). reflexivity.
    + rewrite matches_RNone. split; [discriminate|].
      intros (c' & [= -> ->] & H). congruence.
Qed.

Lemma matches_RCat (r1 r2 : regex) (s : string) :
  matches (RCat r1 r2) s = true
  <-> exists s1 s2, s = s1 ++ s2 /\ matches r1 s1 = true
                    /\ matches r2 s2 = true.
Proof.
  revert r1. induction s as [|c s IH]; intros r1; cbn.
  - rewrite andb_true_iff. split.
    + intros [H1 H2]. exists "", "". auto.
    + intros (s1 & s2 & Hs & H1 & H2).
      destruct s1; [|discriminate]. destruct s2; [|discriminate]. auto.
  - destruct (nullable r1) eqn:Hn.
    + rewrite matches_RAlt, orb_true_iff, IH. split.
      * intros [(s1 & s2 & -> & H1 & H2) | H].
        -- exists (String c s1), s2. auto.
        -- exists "", (String c s). auto.
      * intros (s1 & s2 & Hs & H1 & H2). destruct s1 as [|c1 s1].
        -- right. cbn in Hs. subst s2. exact H2.
        -- left. cbn in Hs. injection Hs as <- ->. exists s1, s2. auto.
    + rewrite IH. split.
      * intros (s1 & s2 & -> & H1 & H2). exists (String c s1), s2. auto.
      * intros (s1 & s2 & Hs & H1 & H2). destruct s1 as [|c1 s1].
        -- cbn in H1. congruence.
        -- cbn in Hs. injection Hs as <- ->. exists s1, s2. auto.
Qed.

Lemma matches_alnum (s : string) :
  matches alnum s = true <-> exists c, s = String c "" /\ is_alnum c = true.
Proof.
  unfold alnum, is_alnum. rewrite !matches_RAlt, !orb_true_iff, !matches_RRange.
  split.
  - intros [(c & -> & H) | [(c & -> & H) | (c & -> & H)]]; exists c; rewrite H;
      rewrite ?orb_true_r; auto.
  - intros (c & -> & H). rewrite !orb_true_iff in H.
    destruct H as [[H|H]|H]; [left | right; left | right; right]; exists c; auto.
Qed.

Lemma matches_group (s : string) :
  matches (RRepeat 4 alnum) s = true <-> is_group s = true.
Proof.
  cbn [RRepeat]. split.
  - intros H.
    apply matches_RCat in H. destruct H as (a & s1 & -> & Ha & H).
    apply matches_RCat in H. destruct H as (b & s2 & -> & Hb & H).
    apply matches_RCat in H. destruct H as (c & s3 & -> & Hc & H).
    apply matches_RCat in H. destruct H as (d & s4 & -> & Hd & H).
    apply matches_REps in H. subst s4.
    apply matches_alnum in Ha, Hb, Hc, Hd.
    destruct Ha as (a' & -> & Ha), Hb as (b' & -> & Hb),
             Hc as (c' & -> & Hc), Hd as (d' & -> & Hd).
    cbn. rewrite Ha, Hb, Hc, Hd. reflexivity.
  - destruct s as [|a [|b [|c [|d [|? ?]]]]]; cbn [is_group]; try discriminate.
    rewrite !andb_true_iff. intros [[[Ha Hb] Hc] Hd].
    apply matches_RCat. exists (String a ""), (String b (String c (String d ""))).
    split; [reflexivity|]. split; [apply matches_alnum; eauto|].
    apply matches_RCat. exists (String b ""), (String c (String d "")).
    split; [reflexivity|]. split; [apply matches_alnum; eauto|].
    apply matches_RCat. exists (String c ""), (String d "").
    split; [reflexivity|]. split; [apply matches_alnum; eauto|].
    apply matches_RCat. exists (String d ""), "".
    split; [reflexivity|]. split; [apply matches_alnum; eauto|].
    reflexivity.
Qed.

Lemma matches_RStr (lit s : string) : matches (RStr lit) s = true <-> s = lit.
Proof.
  revert s. induction lit as [|c lit IH]; intros s; cbn [RStr].
  - apply matches_REps.
  - rewrite matches_RCat. split.
    + intros (s1 & s2 & -> & H1 & H2). apply matches_RChar in H1.
      apply IH in H2. subst. reflexivity.
    + intros ->. exists (String c ""), lit. split; [reflexivity|].
      split; [apply matches_RChar; reflexivity | apply IH; reflexivity].
Qed.

(** X17: the users that the pattern of the account identifiers matches
    are i or ivpn, then three groups of four letters or digits, each
    after a hyphen, and nothing else. *)
Theorem ivpnAccountID_matches (user : string) :
  MatchString ivpnAccountID user = true
  <-> exists prefix g1 g2 g3 : string,
        (prefix = "i" \/ prefix = "ivpn")
        /\ is_group g1 = true /\ is_group g2 = true /\ is_group g3 = true
        /\ user = prefix ++ "-" ++ g1 ++ "-" ++ g2 ++ "-" ++ g3.
Proof.
  unfold MatchString, ivpnAccountID; cbn [re_body]. split.
  - intros H.
    apply matches_RCat in H. destruct H as (prefix & s1 & -> & Hp & H).
    apply matches_RCat in H. destruct H as (d1 & s2 & -> & Hd1 & H).
    apply matches_RCat in H. destruct H as (g1 & s3 & -> & Hg1 & H).
    apply matches_RCat in H. destruct H as (d2 & s4 & -> & Hd2 & H).
    apply matches_RCat in H. destruct H as (g2 & s5 & -> & Hg2 & H).
    apply matches_RCat in H. destruct H as (d3 & g3 & -> & Hd3 & Hg3).
    rewrite matches_RAlt, orb_true_iff, !matches_RStr in Hp.
    apply matches_RChar in Hd1, Hd2, Hd3. subst d1 d2 d3.
    apply matches_group in Hg1, Hg2, Hg3.
    exists prefix, g1, g2, g3. repeat split; auto.
  - intros (prefix & g1 & g2 & g3 & Hp & Hg1 & Hg2 & Hg3 & ->).
    apply matches_RCat. exists prefix, ("-" ++ g1 ++ "-" ++ g2 ++ "-" ++ g3).
    split; [reflexivity|]. split.
    { rewrite matches_RAlt, orb_true_iff, !matches_RStr. exact Hp. }
    apply matches_RCat. exists "-", (g1 ++ "-" ++ g2 ++ "-" ++ g3).
    split; [reflexivity|]. split; [reflexivity|].
    apply matches_RCat. exists g1, ("-" ++ g2 ++ "-" ++ g3).
    split; [reflexivity|]. split; [apply matches_group, Hg1|].
    apply matches_RCat. exists "-", (g2 ++ "-" ++ g3).
    split; [reflexivity|]. split; [reflexivity|].
    apply matches_RCat. exists g2, ("-" ++ g3).
    split; [reflexivity|]. split; [apply matches_group, Hg2|].
    apply matches_RCat. exists "-", g3.
    split; [reflexivity|]. split; [reflexivity|].
    apply matches_group, Hg3.
Qed.

(** ** Patterns and base64 on inputs *)

Example ivpnAccountID_short_prefix :
  MatchString ivpnAccountID "i-abcd-1234-EFGH" = true.
Proof. reflexivity. Qed.

Example ivpnAccountID_long_prefix :
  MatchString ivpnAccountID "ivpn-abcd-1234-EFGH" = true.
Proof. reflexivity. Qed.

Example ivpnAccountID_other_prefix :
  MatchString ivpnAccountID "iv-abcd-1234-EFGH" = false.
Proof. reflexivity. Qed.

Example ivpnAccountID_short_group :
  MatchString ivpnAccountID "i-abc-1234-EFGH" = false.
Proof. reflexivity. Qed.

Example ivpnAccountID_anchored :
  MatchString ivpnAccountID "xi-abcd-1234-EFGH" = false
  /\ MatchString ivpnAccountID "i-abcd-1234-EFGHx" = false.
Proof. split; reflexivity. Qed.

Example ivpnAccountID_other_character :
  MatchString ivpnAccountID "i-abcd-1234-EFG_" = false.
Proof. reflexivity. Qed.

Example DecodeString_padded :
  base64.DecodeString "aGVsbG8=" = Some 5%nat
  /\ base64.DecodeString "aGk=" = Some 2%nat
  /\ base64.DecodeString "YQ==" = Some 1%nat.
Proof. repeat split. Qed.

Example DecodeString_corrupt :
  base64.DecodeString "bad key" = None
  /\ base64.DecodeString "aGVsbG8" = None
  /\ base64.DecodeString "a===" = None
  /\ base64.DecodeString "YQ==YQ==" = None.
Proof. repeat split. Qed.

Example DecodeString_skips_newlines :
  base64.DecodeString ("aGVs" ++ newline ++ "bG8=") = Some 5%nat.
Proof. reflexivity. Qed.

(** ** The resolution algebra *)

Section Algebra.

Context (K : Decls).

Lemma MergeWithString_spec (existing other : string) :
  gosettings.MergeWithString existing other
  = if negb (String.eqb existing "") then existing else other.
Proof.
  unfold gosettings.MergeWithString.
  destruct (String.eqb existing ""); reflexivity.
Qed.

Lemma MergeWithPointer_spec {T : Type} (existing other : ptr T) :
  gosettings.MergeWithPointer existing other
  = if negb (is_nil existing) then existing else other.
Proof. destruct existing, other; reflexivity. Qed.

Lemma MergeWithSlice_spec {T : Type} (existing other : slice T) :
  gosettings.MergeWithSlice existing other
  = if negb (is_nil existing) then existing else other.
Proof. destruct existing, other; reflexivity. Qed.

(** C1: after [a.mergeWith(b)] each field of [a] that was present holds the
    value it had, whatever [b] holds for it, and each field of [a] that
    was absent holds the value of that field of [b]. *)
Theorem mergeWith_keeps_present_fields (a b : OpenVPN) (f : Field) :
  field f (mergeWith a b)
  = if present (field f a) then field f a else field f b.
Proof.
  destruct f; cbn [field mergeWith present Version User Password ConfFile
    Ciphers Auth Cert Key EncryptedKey KeyPassphrase PIAEncPreset MSSFix
    Interface ProcessUser Verbosity Flags];
    rewrite ?MergeWithString_spec, ?MergeWithPointer_spec,
      ?MergeWithSlice_spec;
    match goal with
    | |- context [if ?c then _ else _] => destruct c; reflexivity
    end.
Qed.

Lemma DefaultString_idempotent (s d : string) :
  gosettings.DefaultString (gosettings.DefaultString s d) d
  = gosettings.DefaultString s d.
Proof.
  unfold gosettings.DefaultString.
  destruct (String.eqb s "") eqn:Hs.
  - destruct (String.eqb d ""); reflexivity.
  - rewrite Hs. reflexivity.
Qed.

Lemma DefaultPointer_idempotent {T : Type} (p : ptr T) (d d' : T) :
  gosettings.DefaultPointer (gosettings.DefaultPointer p d) d'
  = gosettings.DefaultPointer p d.
Proof. destruct p; reflexivity. Qed.

Lemma DefaultPointer_not_nil {T : Type} (p : ptr T) (d : T) :
  is_nil (gosettings.DefaultPointer p d) = false.
Proof. destruct p; reflexivity. Qed.

(** C2: for every provider and every settings value, a second
    [setDefaults] changes nothing of what the first one gave. *)
Theorem setDefaults_idempotent (o : OpenVPN) (vpnProvider : string) :
  setDefaults K (setDefaults K o vpnProvider) vpnProvider
  = setDefaults K o vpnProvider.
Proof.
  unfold setDefaults; cbn [Version User Password ConfFile Ciphers Auth Cert
    Key EncryptedKey KeyPassphrase PIAEncPreset MSSFix Interface ProcessUser
    Verbosity Flags].
  rewrite !DefaultString_idempotent.
  destruct (String.eqb vpnProvider (Mullvad K));
    rewrite !DefaultPointer_idempotent; reflexivity.
Qed.

End Algebra.

(** ** Validation of the OpenVPN settings *)

Section Validation.

Context (K : Decls) (W : World).

(** One step through [validate]: a case analysis on a pointer that is
    dereferenced, or on the innermost scrutinee that is not itself a case
    analysis. *)
Ltac step :=
  match goal with
  | |- context [deref ?p] => is_var p; destruct p
  | |- context [match ?x with _ => _ end] =>
      lazymatch x with
      | context [match _ with _ => _ end] => fail
      | context [deref _] => fail
      | _ => destruct x eqn:?
      end
  end.

Ltac fields :=
  cbn [Version User Password ConfFile Ciphers Auth Cert Key EncryptedKey
       KeyPassphrase PIAEncPreset MSSFix Interface ProcessUser Verbosity
       Flags set_Verbosity].

Ltac open_validate :=
  unfold validate, passwordRequired, and_then, or_else, validate_IsOneOf;
  fields.

Lemma errors_Is_Errorf_w (prefix : string) (err : error) (t : Sentinel) :
  errors_Is (Errorf_w prefix err) t = errors_Is err t.
Proof. reflexivity. Qed.

Lemma base64_error_wraps (s : string) (err : error) :
  base64_error W s = Some err -> wraps err = [].
Proof.
  unfold base64_error. destruct (base64.DecodeString s); [discriminate|].
  intros [= <-]. reflexivity.
Qed.

Lemma ConfigFilepath_error
  (c : bool) (f : string) (err : error) (t : Sentinel) :
  validateOpenVPNConfigFilepath K W c f = Some err ->
  Sentinel_eqb t ErrFilepathMissing = false -> errors_Is err t = false.
Proof.
  unfold validateOpenVPNConfigFilepath.
  repeat (step; try discriminate); intros [= <-] Ht; cbn;
    rewrite ?Ht; reflexivity.
Qed.

Lemma ClientCertificate_error (p c : string) (err : error) (t : Sentinel) :
  validateOpenVPNClientCertificate K W p c = Some err ->
  Sentinel_eqb t ErrMissingValue = false -> errors_Is err t = false.
Proof.
  unfold validateOpenVPNClientCertificate.
  repeat (step; try discriminate).
  - intros [= <-] Ht; cbn; rewrite Ht; reflexivity.
  - intros H _. apply base64_error_wraps in H. unfold errors_Is.
    rewrite H. reflexivity.
Qed.

Lemma ClientKey_error (p c : string) (err : error) (t : Sentinel) :
  validateOpenVPNClientKey K W p c = Some err ->
  Sentinel_eqb t ErrMissingValue = false -> errors_Is err t = false.
Proof.
  unfold validateOpenVPNClientKey.
  repeat (step; try discriminate).
  - intros [= <-] Ht; cbn; rewrite Ht; reflexivity.
  - intros H _. apply base64_error_wraps in H. unfold errors_Is.
    rewrite H. reflexivity.
Qed.

Lemma EncryptedKey_error (p c : string) (err : error) (t : Sentinel) :
  validateOpenVPNEncryptedKey K W p c = Some err ->
  Sentinel_eqb t ErrMissingValue = false -> errors_Is err t = false.
Proof.
  unfold validateOpenVPNEncryptedKey.
  repeat (step; try discriminate).
  - intros [= <-] Ht; cbn; rewrite Ht; reflexivity.
  - intros H _. apply base64_error_wraps in H. unfold errors_Is.
    rewrite H. reflexivity.
Qed.

(** The errors of the checks on the file and on the keys wrap none of the
    sentinels of the other checks. *)
Ltac foreign_error :=
  rewrite errors_Is_Errorf_w;
  first
    [ erewrite ConfigFilepath_error by (eassumption || reflexivity)
    | erewrite ClientCertificate_error by (eassumption || reflexivity)
    | erewrite ClientKey_error by (eassumption || reflexivity)
    | erewrite EncryptedKey_error by (eassumption || reflexivity) ].

Lemma validate_returns (o : OpenVPN) (vpnProvider : string) :
  pointers_set o = true -> panics (validate K W o vpnProvider) = false.
Proof.
  destruct o as [ver us pw cf ci au ce ke ek kp pr ms ifc pu vb fl].
  unfold pointers_set; cbn.
  destruct us, pw, cf, au, ce, ke, ek, kp, pr, ms, vb; cbn;
    try discriminate.
  intros _.
  open_validate; cbn [deref bind].
  repeat (step; cbn [bind panics deref]; try reflexivity).
Qed.

Lemma setDefaults_pointers_set (o : OpenVPN) (vpnProvider : string) :
  pointers_set (setDefaults K o vpnProvider) = true.
Proof.
  unfold pointers_set, setDefaults; cbn.
  destruct (String.eqb vpnProvider (Mullvad K));
    rewrite !DefaultPointer_not_nil; reflexivity.
Qed.

Lemma toLinesNode_returns (ObfuscateKey : gosettings.Obfuscator)
  (o : OpenVPN) :
  pointers_set o = true -> panics (toLinesNode ObfuscateKey o) = false.
Proof.
  destruct o as [ver us pw cf ci au ce ke ek kp pr ms ifc pu vb fl].
  unfold pointers_set; cbn.
  destruct us, pw, cf, au, ce, ke, ek, kp, pr, ms, vb; cbn;
    try discriminate.
  intros _.
  unfold toLinesNode; fields; cbn [deref bind].
  match goal with
  | |- context [if ?c then bind _ _ else Ret _] => destruct c
  | |- context [if ?c then Ret _ else Ret _] => destruct c
  end; reflexivity.
Qed.

(** C9, as amended: after [setDefaults] every field of pointer type holds
    a pointer that is not nil, hence [validate] and [toLinesNode] return on
    such settings; on the zero value [toLinesNode] dereferences a nil
    pointer, whereas [validate] returns the error of the version check
    and dereferences nothing, unless the empty string is a valid
    version. *)
Theorem setDefaults_makes_dereferences_safe
  (ObfuscateKey : gosettings.Obfuscator)
  (o : OpenVPN) (vpnProvider provider' : string) :
  pointers_set (setDefaults K o vpnProvider) = true
  /\ panics (validate K W (setDefaults K o vpnProvider) provider') = false
  /\ panics (toLinesNode ObfuscateKey (setDefaults K o vpnProvider)) = false
  /\ toLinesNode ObfuscateKey OpenVPN_zero = NilDeref
  /\ validate K W OpenVPN_zero provider'
     = if existsb (String.eqb "") [Openvpn25 K; Openvpn26 K]
       then NilDeref
       else Ret (Some (Errorf_w_w (sentinel K ErrOpenVPNVersionIsNotValid)
                         (library_error
                            (IsOneOf_message W ""
                               [Openvpn25 K; Openvpn26 K])))).
Proof.
  pose proof (setDefaults_pointers_set o vpnProvider) as Hset.
  repeat split.
  - exact Hset.
  - apply validate_returns, Hset.
  - apply toLinesNode_returns, Hset.
  - unfold validate, validate_IsOneOf; cbn [Version OpenVPN_zero].
    destruct (existsb (String.eqb "") [Openvpn25 K; Openvpn26 K]);
      [ | reflexivity ].
    unfold passwordRequired, and_then, or_else; cbn [User OpenVPN_zero].
    destruct (isUserRequired K provider'); reflexivity.
Qed.


(** C4: whatever the other fields, an error of [validate] that wraps the
    sentinel of the verbosity comes with a verbosity under 0 or over 6;
    and when the checks before the one of the verbosity pass, [validate]
    fails with that sentinel exactly when the verbosity is under 0 or
    over 6, so that 0 to 6 pass, with a message that ends in "can only be
    between 0 and 5" (after the address of the pointer, which is what the
    format is given). *)
Theorem verbosity_bounds (o : OpenVPN) (p : string) (v : Z) :
  (forall err,
     validate K W (set_Verbosity o (Some v)) p = Ret (Some err) ->
     errors_Is err ErrOpenVPNVerbosityIsOutOfBounds = true ->
     v < 0 \/ 6 < v)
  /\ (validate K W (set_Verbosity o (Some 0)) p = Ret None ->
      validate K W (set_Verbosity o (Some v)) p
      = if (v <? 0) || (6 <? v)
        then Ret (Some (mkError [ErrOpenVPNVerbosityIsOutOfBounds]
                          (sentinel_message K ErrOpenVPNVerbosityIsOutOfBounds
                           ++ ": " ++ fmt_d (Verbosity_address W)
                           ++ " can only be between 0 and 5")))
        else Ret None).
Proof.
  destruct o as [ver us pw cf ci au ce ke ek kp pr ms ifc pu vb fl].
  split.
  - intros err. open_validate.
    repeat (step; cbn [bind deref]; try (intros Heq; discriminate Heq));
      intros Heq; injection Heq as <-; try foreign_error; cbn;
      try discriminate.
    all: intros _; lia.
  - open_validate.
    repeat (step; cbn [bind deref]; try (intros Heq; discriminate Heq);
            try reflexivity).
Qed.

(** C5: for settings with a valid version, an empty user makes [validate]
    fail with the sentinel of the empty user exactly when the provider is
    neither custom, nor Airvpn, nor VPNSecure; and, the check of the user
    passing, an empty password makes it fail with the sentinel of the
    empty password exactly when the user is required and either the
    provider is not Ivpn or the user does not match the pattern of the
    account identifiers. *)
Theorem credentials_required (o : OpenVPN) (p user password : string) :
  validate_IsOneOf W (Version o) [Openvpn25 K; Openvpn26 K] = None ->
  User o = Some user ->
  Password o = Some password ->
  (user = "" ->
   fails_with (validate K W o p) ErrOpenVPNUserIsEmpty
   = negb (String.eqb p (Custom K))
     && negb (String.eqb p (Airvpn K))
     && negb (String.eqb p (VPNSecure K)))
  /\ (isUserRequired K p && String.eqb user "" = false ->
      password = "" ->
      fails_with (validate K W o p) ErrOpenVPNPasswordIsEmpty
      = isUserRequired K p
        && (negb (String.eqb p (Ivpn K))
            || negb (MatchString ivpnAccountID user))).
Proof.
  destruct o as [ver us pw cf ci au ce ke ek kp pr ms ifc pu vb fl].
  fields. intros Hversion -> ->.
  change (negb (String.eqb p (Custom K)) && negb (String.eqb p (Airvpn K))
          && negb (String.eqb p (VPNSecure K)))
    with (isUserRequired K p).
  unfold validate; fields. rewrite Hversion. clear Hversion.
  unfold passwordRequired, and_then, or_else; fields; cbn [deref bind].
  split.
  - intros ->. cbn [String.eqb].
    destruct (isUserRequired K p); [reflexivity|].
    cbn [bind].
    repeat (step; cbn [bind deref fails_with]; try reflexivity;
            try (foreign_error; reflexivity)).
  - intros Huser ->. cbn [String.eqb].
    destruct (isUserRequired K p); cbn [andb] in *.
    + rewrite Huser. cbn [bind].
      destruct (negb (String.eqb p (Ivpn K))); cbn [bind orb];
        [reflexivity|].
      destruct (negb (MatchString ivpnAccountID user)); cbn [bind];
        [reflexivity|].
      repeat (step; cbn [bind deref fails_with]; try reflexivity;
              try (foreign_error; reflexivity)).
    + cbn [bind].
      repeat (step; cbn [bind deref fails_with]; try reflexivity;
              try (foreign_error; reflexivity)).
Qed.

(** The checks of the version, of the user and password and of the
    configuration file passing, [validate] gives what the check of the
    client certificate gives. *)
Lemma validate_reaches_certificate
  (o : OpenVPN) (p user password confFile cert : string) :
  validate_IsOneOf W (Version o) [Openvpn25 K; Openvpn26 K] = None ->
  User o = Some user ->
  Password o = Some password ->
  ConfFile o = Some confFile ->
  Cert o = Some cert ->
  isUserRequired K p && String.eqb user "" = false ->
  (passwordRequired K o p = Ret true -> password <> "") ->
  validateOpenVPNConfigFilepath K W (isCustom K p) confFile = None ->
  exists rest : go (option error),
    validate K W o p
    = match validateOpenVPNClientCertificate K W p cert with
      | Some err => Ret (Some (Errorf_w "client certificate: " err))
      | None => rest
      end.
Proof.
  destruct o as [ver us pw cf ci au ce ke ek kp pr ms ifc pu vb fl].
  fields. intros Hversion -> -> -> -> Huser Hpassword Hconf.
  eexists. unfold validate; fields. rewrite Hversion.
  revert Hpassword.
  unfold passwordRequired, and_then, or_else; fields; cbn [deref bind].
  destruct (isUserRequired K p); cbn [andb] in Huser; cbn [bind].
  - rewrite Huser; cbn [bind].
    destruct (negb (String.eqb p (Ivpn K))); cbn [bind orb].
    + intros Hpassword.
      destruct (String.eqb_spec password "") as [Hp|Hp];
        [ exfalso; apply Hpassword; auto | ].
      cbn [bind]. rewrite Hconf. reflexivity.
    + destruct (negb (MatchString ivpnAccountID user)); cbn [bind].
      * intros Hpassword.
        destruct (String.eqb_spec password "") as [Hp|Hp];
          [ exfalso; apply Hpassword; auto | ].
        cbn [bind]. rewrite Hconf. reflexivity.
      * intros _. rewrite Hconf. reflexivity.
  - intros _. rewrite Hconf. reflexivity.
Qed.

(** C6: the checks of the version, of the user and password and of the
    configuration file passing, [validate] fails with the sentinel of the
    missing value under "client certificate: " when the provider is
    Airvpn, Cyberghost, VPNSecure or VPNUnlimited and the certificate is
    empty; for every provider it fails when the certificate is not empty
    and is not standard base64; and the check of the certificate passes
    on an empty certificate for every other provider. *)
Theorem certificate_required
  (o : OpenVPN) (p user password confFile cert : string) :
  validate_IsOneOf W (Version o) [Openvpn25 K; Openvpn26 K] = None ->
  User o = Some user ->
  Password o = Some password ->
  ConfFile o = Some confFile ->
  Cert o = Some cert ->
  isUserRequired K p && String.eqb user "" = false ->
  (passwordRequired K o p = Ret true -> password <> "") ->
  validateOpenVPNConfigFilepath K W (isCustom K p) confFile = None ->
  (In p (certificate_providers K) -> cert = "" ->
   validate K W o p
   = Ret (Some (mkError [ErrMissingValue]
                  ("client certificate: "
                   ++ sentinel_message K ErrMissingValue))))
  /\ (cert <> "" -> base64.DecodeString cert = None ->
      validate K W o p
      = Ret (Some (mkError []
                     ("client certificate: "
                      ++ CorruptInput_message W cert))))
  /\ (~ In p (certificate_providers K) ->
      validateOpenVPNClientCertificate K W p "" = None).
Proof.
  intros Hversion Hu Hpw Hcf Hce Huser Hpassword Hconf.
  destruct (validate_reaches_certificate o p user password confFile cert
              Hversion Hu Hpw Hcf Hce Huser Hpassword Hconf)
    as [rest Hstart].
  repeat split.
  - intros Hp ->. rewrite Hstart.
    unfold validateOpenVPNClientCertificate.
    cbn [In certificate_providers] in Hp.
    destruct Hp as [<- | [<- | [<- | [<- | []]]]];
      rewrite String.eqb_refl, ?orb_true_r; reflexivity.
  - intros Hcert Hdecode. rewrite Hstart.
    unfold validateOpenVPNClientCertificate, base64_error.
    apply String.eqb_neq in Hcert. rewrite Hcert, andb_false_r, Hdecode.
    reflexivity.
  - intros Hp. unfold validateOpenVPNClientCertificate.
    cbn [In certificate_providers] in Hp.
    destruct (String.eqb_spec p (Airvpn K)); [ exfalso; auto | ].
    destruct (String.eqb_spec p (Cyberghost K)); [ exfalso; auto | ].
    destruct (String.eqb_spec p (VPNSecure K)); [ exfalso; auto | ].
    destruct (String.eqb_spec p (VPNUnlimited K)); [ exfalso; auto 6 | ].
    reflexivity.
Qed.

End Validation.

(** The settings of the sample are what [setDefaults] makes of a user
    alone for the provider mullvad, and they are valid. *)
Example setDefaults_mullvad :
  setDefaults sample_decls
    (set_credentials OpenVPN_zero (Some "jdoe") None) "mullvad"
  = sample_settings.
Proof. reflexivity. Qed.

Example validate_sample_settings :
  validate sample_decls sample_world sample_settings "mullvad" = Ret None.
Proof. reflexivity. Qed.

(** C9, as stated, fails: [validate] on the zero value returns the error
    of the version check, it does not dereference a nil pointer. *)
Lemma validate_zero_value_returns :
  validate sample_decls sample_world OpenVPN_zero "mullvad"
  = Ret (Some (mkError [ErrOpenVPNVersionIsNotValid]
                 ("version is not valid: value is not one of the possible "
                  ++ "choices:  must be one of 2.5, 2.6")))
  /\ panics (validate sample_decls sample_world OpenVPN_zero "mullvad")
     = false.
Proof. split; reflexivity. Qed.

(** The verbosity 6 passes and the verbosity 7 does not. *)
Lemma verbosity_bounds_witness :
  validate sample_decls sample_world (set_Verbosity sample_settings (Some 6))
    "mullvad" = Ret None
  /\ validate sample_decls sample_world
       (set_Verbosity sample_settings (Some 7)) "mullvad"
     = Ret (Some (mkError [ErrOpenVPNVerbosityIsOutOfBounds]
                    ("verbosity value is out of bounds: 824633802952 "
                     ++ "can only be between 0 and 5"))).
Proof.
  split.
  - apply (proj2 (verbosity_bounds sample_decls sample_world sample_settings
                    "mullvad" 6)).
    reflexivity.
  - apply (proj2 (verbosity_bounds sample_decls sample_world sample_settings
                    "mullvad" 7)).
    reflexivity.
Defined.

(** With the provider ivpn, an account identifier as user and no password
    pass the check of the password; with another user they do not. *)
Lemma credentials_required_witness :
  fails_with
    (validate sample_decls sample_world
       (set_credentials sample_settings (Some "i-abcd-1234-EFGH") (Some ""))
       "ivpn")
    ErrOpenVPNPasswordIsEmpty = false
  /\ fails_with
       (validate sample_decls sample_world
          (set_credentials sample_settings (Some "jdoe") (Some "")) "ivpn")
       ErrOpenVPNPasswordIsEmpty = true
  /\ fails_with
       (validate sample_decls sample_world
          (set_credentials sample_settings (Some "") (Some "")) "ivpn")
       ErrOpenVPNUserIsEmpty = true.
Proof.
  split; [ | split ].
  - apply (proj2 (credentials_required sample_decls sample_world
                    (set_credentials sample_settings
                       (Some "i-abcd-1234-EFGH") (Some ""))
                    "ivpn" "i-abcd-1234-EFGH" ""
                    eq_refl eq_refl eq_refl));
      reflexivity.
  - apply (proj2 (credentials_required sample_decls sample_world
                    (set_credentials sample_settings (Some "jdoe") (Some ""))
                    "ivpn" "jdoe" "" eq_refl eq_refl eq_refl));
      reflexivity.
  - apply (proj1 (credentials_required sample_decls sample_world
                    (set_credentials sample_settings (Some "") (Some ""))
                    "ivpn" "" "" eq_refl eq_refl eq_refl));
      reflexivity.
Defined.

(** With the provider cyberghost and no certificate, the validation fails
    on the certificate, whatever the key. *)
Lemma certificate_required_witness :
  validate sample_decls sample_world sample_settings "cyberghost"
  = Ret (Some (mkError [ErrMissingValue]
                 "client certificate: missing value")).
Proof.
  apply (proj1 (certificate_required sample_decls sample_world
                  sample_settings "cyberghost" "jdoe" "m" "" ""
                  eq_refl eq_refl eq_refl eq_refl eq_refl eq_refl
                  (fun _ => proj1 (String.eqb_neq "m" "") eq_refl)
                  eq_refl)).
  - cbn. auto.
  - reflexivity.
Defined.

(** ** The check of the WireGuard settings *)

Module wireguard_properties.

Import wireguard.

Section FailFast.

Context (IPNet_String : IPNet -> string).

(** When a check of the list fails, the result is the error of the first
    check that fails, which stands at or before it. *)
Lemma firstFailure_first
  (cs : list (Settings -> option error)) (s : Settings) :
  forall (i : nat) (c : Settings -> option error) (err : error),
    nth_error cs i = Some c -> c s = Some err ->
    exists (k : nat) (c' : Settings -> option error) (err' : error),
      (k <= i)%nat
      /\ nth_error cs k = Some c'
      /\ c' s = Some err'
      /\ (forall (j : nat) (d : Settings -> option error),
            (j < k)%nat -> nth_error cs j = Some d -> d s = None)
      /\ firstFailure cs s = Some err'.
Proof.
  induction cs as [|c0 cs IH]; intros i c err Hnth Hfail.
  - destruct i; discriminate.
  - cbn [firstFailure]. destruct (c0 s) as [e0|] eqn:H0.
    + exists O, c0, e0. repeat split; auto.
      * lia.
      * intros j d Hj. lia.
    + destruct i as [|i]; cbn [nth_error] in Hnth.
      * injection Hnth as <-. congruence.
      * destruct (IH i c err Hnth Hfail)
          as (k & c' & err' & Hk & Hnk & Hc' & Hbefore & Hres).
        exists (S k), c', err'. repeat split; auto.
        -- lia.
        -- intros [|j] d Hj Hd; cbn [nth_error] in Hd.
           ++ injection Hd as <-. exact H0.
           ++ apply (Hbefore j d); [lia | exact Hd].
Qed.

(** C3: on the zero value of the settings, [Check] gives the error of the
    interface name, with the message "invalid interface name: ", and so it
    does whatever checks come after the one of the interface name; and on
    every settings value, when a check fails, [Check] gives the error of
    the first check that fails in the order of the checks, never the one
    of a later check. *)
Theorem Check_fails_fast :
  Check IPNet_String Settings_zero
  = Some (mkError ErrInterfaceNameInvalid "invalid interface name: ")
  /\ (forall later : list (Settings -> option error),
        firstFailure (checkInterfaceName :: later) Settings_zero
        = Some (mkError ErrInterfaceNameInvalid "invalid interface name: "))
  /\ (forall (s : Settings) (i : nat) (c : Settings -> option error)
             (err : error),
        nth_error (checks IPNet_String) i = Some c -> c s = Some err ->
        exists (k : nat) (c' : Settings -> option error) (err' : error),
          (k <= i)%nat
          /\ nth_error (checks IPNet_String) k = Some c'
          /\ c' s = Some err'
          /\ (forall (j : nat) (d : Settings -> option error),
                (j < k)%nat -> nth_error (checks IPNet_String) j = Some d ->
                d s = None)
          /\ Check IPNet_String s = Some err').
Proof.
  split; [reflexivity|]. split; [reflexivity|].
  intros s i c err. apply firstFailure_first.
Qed.

End FailFast.

(** The cases of the tests of [Check]. *)

Example Check_bad_interface_name :
  Check no_text (mkSettings "$H1T" "" "" "" None 0 0 [] [] None "")
  = Some (mkError ErrInterfaceNameInvalid "invalid interface name: $H1T").
Proof. reflexivity. Qed.

Example Check_empty_private_key :
  Check no_text (mkSettings "wg0" "" "" "" None 0 0 [] [] None "")
  = Some (mkError ErrPrivateKeyMissing "private key is missing").
Proof. reflexivity. Qed.

Example Check_bad_public_key :
  Check no_text (mkSettings "wg0" validKey1 "bad key" "" None 0 0 [] [] None "")
  = Some (mkError ErrPublicKeyInvalid "cannot parse public key: bad key").
Proof. reflexivity. Qed.

Example Check_nil_endpoint_port :
  Check no_text
    (mkSettings "wg0" validKey1 validKey2 ""
       (Some (mkUDPAddr (IPv4 1 2 3 4) 0)) 0 0 [] [] None "")
  = Some (mkError ErrEndpointPortMissing "endpoint port is missing").
Proof. reflexivity. Qed.

Example Check_nil_allowed_IP :
  Check no_text
    (mkSettings "wg0" validKey1 validKey2 ""
       (Some (mkUDPAddr (IPv4 1 2 3 4) 51820)) 0 0 [None] [] None "")
  = Some (mkError ErrAllowedIPIsNil
            "allowed IP is nil: for allowed IP 1 of 1").
Proof. reflexivity. Qed.

Example Check_ipv6_allowed_IP :
  Check no_text
    (mkSettings "wg0" validKey1 validKey2 ""
       (Some (mkUDPAddr (IPv4 1 2 3 4) 51820)) 0 0 [Some allIPv6] []
       (Some false) "")
  = Some (mkError ErrAllowedIPv6NotSupported
            "allowed IPv6 address not supported: for allowed IP ::/0").
Proof. reflexivity. Qed.

Example Check_nil_address_mask :
  Check no_text
    (mkSettings "wg0" validKey1 validKey2 ""
       (Some (mkUDPAddr (IPv4 1 2 3 4) 51820)) 0 0 [Some allIPv6]
       [Some (mkIPNet (IPv4 1 2 3 4) None)] (Some true) "")
  = Some (mkError ErrAddressMaskMissing
            "interface address mask is missing: for address 1 of 1").
Proof. reflexivity. Qed.

Example Check_invalid_implementation :
  Check no_text
    (mkSettings "wg0" validKey1 validKey2 ""
       (Some (mkUDPAddr (IPv4 1 2 3 4) 51820)) 999 0 [Some allIPv6]
       [Some (mkIPNet (IPv4 1 2 3 4) (Some [255; 255; 255; 0]))]
       (Some true) "x")
  = Some (mkError ErrImplementationInvalid "invalid implementation: x").
Proof. reflexivity. Qed.

Example Check_all_valid :
  Check no_text
    (mkSettings "wg0" validKey1 validKey2 ""
       (Some (mkUDPAddr (IPv4 1 2 3 4) 51820)) 999 0 [Some allIPv6]
       [Some (mkIPNet (IPv4 1 2 3 4) (Some [255; 255; 255; 0]))]
       (Some true) "userspace")
  = None.
Proof. reflexivity. Qed.

End wireguard_properties.

(** ** Rendering *)

(** A node whose children are leaves, one for each line, with one leaf
    more. *)
Lemma Appendf_lines (title : string) (lines : list string) (text : string) :
  gotree.Appendf (mkNode title (map gotree.New lines)) text
  = mkNode title (map gotree.New (lines ++ [text])%list).
Proof. cbn [gotree.Appendf]. rewrite map_app. reflexivity. Qed.

Lemma Appendf_if_lines (cond : bool) (title : string) (lines : list string)
  (text : string) :
  Appendf_if cond (mkNode title (map gotree.New lines)) text
  = mkNode title (map gotree.New (lines ++ line_if cond text)%list).
Proof.
  destruct cond; cbn [Appendf_if line_if].
  - apply Appendf_lines.
  - rewrite app_nil_r. reflexivity.
Qed.

Lemma field_lines_leaves (title : string) (lines : list string) :
  field_lines (mkNode title (map gotree.New lines)) = lines.
Proof.
  unfold field_lines. cbn [gotree.childs]. rewrite map_map.
  cbn [gotree.New gotree.value]. apply map_id.
Qed.

Lemma length_line_if (cond : bool) (text : string) :
  length (line_if cond text) = shown cond.
Proof. destruct cond; reflexivity. Qed.

(** The tree of settings whose pointers are set: the leaves under the
    title, in order. *)
Lemma toLinesNode_lines (ObfuscateKey : gosettings.Obfuscator)
  (version user password confFile : string) (ciphers : slice string)
  (auth cert key encryptedKey passphrase preset : string) (mssFix : Z)
  (interface processUser : string) (verbosity : Z) (flags : slice string) :
  toLinesNode ObfuscateKey
    (mkOpenVPN version (Some user) (Some password) (Some confFile)
       ciphers (Some auth) (Some cert) (Some key) (Some encryptedKey)
       (Some passphrase) (Some preset) (Some mssFix) interface
       processUser (Some verbosity) flags)
  = Ret (mkNode "OpenVPN settings:"
           (map gotree.New
              (concat
                 [ [ "OpenVPN version: " ++ version;
                     "User: " ++ ObfuscateKey user;
                     "Password: " ++ ObfuscateKey password ];
                   line_if (negb (String.eqb confFile ""))
                     ("Custom configuration file: " ++ confFile);
                   line_if (0 <? len ciphers)%nat
                     ("Ciphers: " ++ fmt_strings ciphers);
                   line_if (negb (String.eqb auth "")) ("Auth: " ++ auth);
                   line_if (negb (String.eqb cert ""))
                     ("Client crt: " ++ ObfuscateKey cert);
                   line_if (negb (String.eqb key ""))
                     ("Client key: " ++ ObfuscateKey key);
                   line_if (negb (String.eqb encryptedKey ""))
                     ("Encrypted key: " ++ ObfuscateKey encryptedKey
                      ++ " (key passhrapse " ++ ObfuscateKey passphrase
                      ++ ")");
                   line_if (negb (String.eqb preset ""))
                     ("Private Internet Access encryption preset: "
                      ++ preset);
                   line_if (0 <? mssFix)%Z ("MSS Fix: " ++ fmt_d mssFix);
                   line_if (negb (String.eqb interface ""))
                     ("Network interface: " ++ interface);
                   [ "Run OpenVPN as: " ++ processUser;
                     "Verbosity level: " ++ fmt_d verbosity ];
                   line_if (0 <? len flags)%nat
                     ("Flags: " ++ fmt_strings flags) ]))).
Proof.
  unfold toLinesNode.
  cbn [Version User Password ConfFile Ciphers Auth Cert Key EncryptedKey
       KeyPassphrase PIAEncPreset MSSFix Interface ProcessUser Verbosity
       Flags deref bind].
  match goal with
  | |- context [bind (if ?c then Ret ?a else Ret ?b) ?k] =>
      replace (bind (if c then Ret a else Ret b) k)
        with (k (if c then a else b)) by (destruct c; reflexivity);
      change (if c then a else b)
        with (Appendf_if c b
                ("Encrypted key: " ++ ObfuscateKey encryptedKey
                 ++ " (key passhrapse " ++ ObfuscateKey passphrase
                 ++ ")"))
  end.
  cbv beta.
  change (gotree.New "OpenVPN settings:")
    with (mkNode "OpenVPN settings:" (map gotree.New [])).
  repeat (first [ rewrite Appendf_lines | rewrite Appendf_if_lines ]).
  rewrite <- !app_assoc. cbn [concat app]. rewrite app_nil_r.
  reflexivity.
Qed.











(** The cases of the tests of [ToLines] and of [String]. *)

Example ToLinesSettings_setDefaults_keeps_indent :
  wireguard.ToLinesSettings_setDefaults
    (wireguard.mkToLinesSettings (Some "indent") None None)
  = wireguard.mkToLinesSettings (Some "indent") (Some "├── ")
      (Some "└── ").
Proof. reflexivity. Qed.

Example ToLines_empty_settings :
  wireguard.ToLines wireguard.sample_UDPAddr_String
    wireguard.sample_IPNet_String
    (wireguard.mkSettings "" "" "" "" None 0 0 [] [] (Some false) "")
    (wireguard.mkToLinesSettings None None None)
  = Ret [ "├── Interface name: "; "├── Private key: not set";
          "├── Pre shared key: not set"; "├── Endpoint: not set";
          "├── IPv6: disabled"; "├── Implementation: ";
          "└── Addresses: not set" ].
Proof. reflexivity. Qed.

Example ToLines_settings_all_set :
  wireguard.ToLines wireguard.sample_UDPAddr_String
    wireguard.sample_IPNet_String
    (wireguard.mkSettings "wg0" "private key" "public key" "pre-shared key"
       (Some (wireguard.mkUDPAddr (wireguard.IPv4 1 2 3 4) 51820)) 999 888
       []
       [ Some (wireguard.mkIPNet (wireguard.IPv4 1 1 1 1)
                 (Some [255; 255; 255; 0]));
         Some (wireguard.mkIPNet (wireguard.IPv4 2 2 2 2)
                 (Some [255; 255; 255; 255])) ]
       (Some true) "userspace")
    (wireguard.mkToLinesSettings None None None)
  = Ret [ "├── Interface name: wg0"; "├── Private key: set";
          "├── PublicKey: public key"; "├── Pre shared key: set";
          "├── Endpoint: 1.2.3.4:51820"; "├── IPv6: enabled";
          "├── Firewall mark: 999"; "├── Rule priority: 888";
          "├── Implementation: userspace"; "└── Addresses:";
          "    ├── 1.1.1.1/24"; "    └── 2.2.2.2/32" ].
Proof. reflexivity. Qed.

Example ToLines_custom_line_settings :
  wireguard.ToLines wireguard.sample_UDPAddr_String
    wireguard.sample_IPNet_String
    (wireguard.mkSettings "wg0" "" "" "" None 0 0 []
       [ Some (wireguard.mkIPNet (wireguard.IPv4 1 1 1 1)
                 (Some [255; 255; 255; 0]));
         Some (wireguard.mkIPNet (wireguard.IPv4 2 2 2 2)
                 (Some [255; 255; 255; 255])) ]
       (Some false) "")
    (wireguard.mkToLinesSettings (Some "  ") (Some "- ") (Some "* "))
  = Ret [ "- Interface name: wg0"; "- Private key: not set";
          "- Pre shared key: not set"; "- Endpoint: not set";
          "- IPv6: disabled"; "- Implementation: "; "* Addresses:";
          "  - 1.1.1.1/24"; "  * 2.2.2.2/32" ].
Proof. reflexivity. Qed.

Example String_of_settings :
  wireguard.String wireguard.sample_UDPAddr_String
    wireguard.sample_IPNet_String
    (wireguard.mkSettings "wg0" "" "" "" None 0 0 [] [] (Some true) "x")
  = Ret ("├── Interface name: wg0" ++ newline
         ++ "├── Private key: not set" ++ newline
         ++ "├── Pre shared key: not set" ++ newline
         ++ "├── Endpoint: not set" ++ newline
         ++ "├── IPv6: enabled" ++ newline
         ++ "├── Implementation: x" ++ newline
         ++ "└── Addresses: not set").
Proof. reflexivity. Qed.

(** C8, as amended: the tree of settings whose pointers are set has, under
    its title, these leaves and no other, in this order: the version, the
    user and the password, each with the text that [ObfuscateKey] gives,
    whether empty or not; then one leaf for each of the configuration
    file, ciphers, auth, certificate, key, encrypted key (with the
    passphrase), encryption preset, MSS fix and interface that is not
    empty (not zero, above zero for the MSS fix), and none for one that
    is; then the process user and the verbosity; then the flags, if there
    are any.  So an empty optional field has no line, and the number of
    the lines is five and one more for each optional field that is not
    empty.  The updater settings have no line when the period is zero,
    and otherwise the two lines of the title and of the period. *)
Theorem rendering_leaves_out_empty_fields
  (ObfuscateKey : gosettings.Obfuscator)
  (version user password confFile : string) (ciphers : slice string)
  (auth cert key encryptedKey passphrase preset : string) (mssFix : Z)
  (interface processUser : string) (verbosity : Z) (flags : slice string)
  (indent lastIndent : string)
  (Duration_String : updater.Duration -> string) (u : updater.Updater) :
  toLinesNode ObfuscateKey
    (mkOpenVPN version (Some user) (Some password) (Some confFile)
       ciphers (Some auth) (Some cert) (Some key) (Some encryptedKey)
       (Some passphrase) (Some preset) (Some mssFix) interface
       processUser (Some verbosity) flags)
  = Ret (mkNode "OpenVPN settings:"
           (map gotree.New
              (concat
                 [ [ "OpenVPN version: " ++ version;
                     "User: " ++ ObfuscateKey user;
                     "Password: " ++ ObfuscateKey password ];
                   line_if (negb (String.eqb confFile ""))
                     ("Custom configuration file: " ++ confFile);
                   line_if (0 <? len ciphers)%nat
                     ("Ciphers: " ++ fmt_strings ciphers);
                   line_if (negb (String.eqb auth "")) ("Auth: " ++ auth);
                   line_if (negb (String.eqb cert ""))
                     ("Client crt: " ++ ObfuscateKey cert);
                   line_if (negb (String.eqb key ""))
                     ("Client key: " ++ ObfuscateKey key);
                   line_if (negb (String.eqb encryptedKey ""))
                     ("Encrypted key: " ++ ObfuscateKey encryptedKey
                      ++ " (key passhrapse " ++ ObfuscateKey passphrase
                      ++ ")");
                   line_if (negb (String.eqb preset ""))
                     ("Private Internet Access encryption preset: "
                      ++ preset);
                   line_if (0 <? mssFix)%Z ("MSS Fix: " ++ fmt_d mssFix);
                   line_if (negb (String.eqb interface ""))
                     ("Network interface: " ++ interface);
                   [ "Run OpenVPN as: " ++ processUser;
                     "Verbosity level: " ++ fmt_d verbosity ];
                   line_if (0 <? len flags)%nat
                     ("Flags: " ++ fmt_strings flags) ])))
  /\ (exists lines : list string,
         rendered ObfuscateKey
           (mkOpenVPN version (Some user) (Some password) (Some confFile)
              ciphers (Some auth) (Some cert) (Some key)
              (Some encryptedKey) (Some passphrase) (Some preset)
              (Some mssFix) interface processUser (Some verbosity) flags)
         = Ret lines
         /\ length lines
            = (5 + shown (negb (String.eqb confFile ""))
               + shown (0 <? len ciphers)%nat
               + shown (negb (String.eqb auth ""))
               + shown (negb (String.eqb cert ""))
               + shown (negb (String.eqb key ""))
               + shown (negb (String.eqb encryptedKey ""))
               + shown (negb (String.eqb preset ""))
               + shown (0 <? mssFix)%Z
               + shown (negb (String.eqb interface ""))
               + shown (0 <? len flags)%nat)%nat)
  /\ updater.lines indent lastIndent Duration_String u
     = if updater.Period u =? 0 then []
       else [ lastIndent ++ "Updater:";
              indent ++ lastIndent ++ "Period: every "
              ++ Duration_String (updater.Period u) ].
Proof.
  pose proof (toLinesNode_lines ObfuscateKey version user password confFile
                ciphers auth cert key encryptedKey passphrase preset mssFix
                interface processUser verbosity flags) as Hnode.
  split; [exact Hnode|]. split.
  - eexists. split.
    + unfold rendered. rewrite Hnode. cbn [bind].
      rewrite field_lines_leaves. reflexivity.
    + cbn [concat]. rewrite !length_app, !length_line_if.
      cbn [length]. lia.
  - unfold updater.lines. destruct (updater.Period u =? 0); reflexivity.
Qed.

(** C8, as stated, fails: the settings of the sample have an empty
    configuration file and no ciphers, auth, keys, preset, MSS fix or
    flags, and none of these has a line; with a configuration file there
    is one line more; and the updater settings with a zero period have no
    line at all. *)
Lemma empty_fields_have_no_line :
  rendered sample_ObfuscateKey sample_settings
  = Ret [ "OpenVPN version: 2.5"; "User: [set]"; "Password: [set]";
          "Network interface: tun0"; "Run OpenVPN as: root";
          "Verbosity level: 1" ]
  /\ rendered sample_ObfuscateKey
       (set_ConfFile sample_settings (Some "/gluetun/custom.conf"))
     = Ret [ "OpenVPN version: 2.5"; "User: [set]"; "Password: [set]";
             "Custom configuration file: /gluetun/custom.conf";
             "Network interface: tun0"; "Run OpenVPN as: root";
             "Verbosity level: 1" ]
  /\ updater.lines "   " "|--" fmt_d updater.Updater_zero = [].
Proof. split; [|split]; reflexivity. Qed.

(** ** Reading the updater settings *)

(** C10: [read] sets the flags of Cyberghost, Mullvad, Nordvpn, PIA,
    Purevpn, Surfshark, Torguard, Vyprvpn and Windscribe, unsets [Stdout]
    and [CLI] and sets the DNS address to 1.1.1.1, whatever the settings
    and the environment; the period and the error are those that the
    environment gives for [UPDATER_PERIOD] with the default 0; the flag of
    Privado is left as it was. *)
Theorem read_sets_all_but_Privado (s : updater.Updater) (r : updater.reader) :
  let s' := fst (updater.read s r) in
  let answer := @updater.env_Duration (updater.env r) "UPDATER_PERIOD" "0" in
  updater.Cyberghost s' = true /\ updater.Mullvad s' = true
  /\ updater.Nordvpn s' = true /\ updater.PIA s' = true
  /\ updater.Purevpn s' = true /\ updater.Surfshark s' = true
  /\ updater.Torguard s' = true /\ updater.Vyprvpn s' = true
  /\ updater.Windscribe s' = true
  /\ updater.Stdout s' = false /\ updater.CLI s' = false
  /\ updater.DNSAddress s' = "1.1.1.1"
  /\ updater.Period s' = fst answer
  /\ snd (updater.read s r) = snd answer
  /\ updater.Privado s' = updater.Privado s.
Proof.
  unfold updater.read.
  destruct (@updater.env_Duration (updater.env r) "UPDATER_PERIOD" "0")
    as [period [err|]]; cbn; repeat split.
Qed.

(** After [read] on the zero value the flag of Privado is not set. *)
Lemma read_leaves_Privado_unset :
  updater.Privado (fst (updater.read updater.Updater_zero sample_reader))
  = false.
Proof. reflexivity. Qed.

(** ** More of the resolution algebra *)

Lemma OverrideWithString_spec (existing other : string) :
  gosettings.OverrideWithString existing other
  = if negb (String.eqb other "") then other else existing.
Proof.
  unfold gosettings.OverrideWithString.
  destruct (String.eqb other ""); reflexivity.
Qed.

Lemma OverrideWithPointer_spec {T : Type} (existing other : ptr T) :
  gosettings.OverrideWithPointer existing other
  = if negb (is_nil other) then other else existing.
Proof. destruct existing, other; reflexivity. Qed.

Lemma OverrideWithSlice_spec {T : Type} (existing other : slice T) :
  gosettings.OverrideWithSlice existing other
  = if negb (is_nil other) then other else existing.
Proof. destruct existing, other; reflexivity. Qed.

(** X1: after [a.overrideWith(b)] each field that is present in [b] holds
    the value of [b], whatever [a] held, and each field that is absent in
    [b] holds the value it had in [a]. *)
Theorem overrideWith_takes_present_fields (a b : OpenVPN) (f : Field) :
  field f (overrideWith a b)
  = if present (field f b) then field f b else field f a.
Proof.
  destruct f; cbn [field overrideWith present Version User Password
    ConfFile Ciphers Auth Cert Key EncryptedKey KeyPassphrase PIAEncPreset
    MSSFix Interface ProcessUser Verbosity Flags];
    rewrite ?OverrideWithString_spec, ?OverrideWithPointer_spec,
      ?OverrideWithSlice_spec;
    match goal with
    | |- context [if ?c then _ else _] => destruct c; reflexivity
    end.
Qed.

Lemma OverrideWithString_MergeWithString (existing other : string) :
  gosettings.OverrideWithString existing other
  = gosettings.MergeWithString other existing.
Proof. reflexivity. Qed.

Lemma OverrideWithPointer_MergeWithPointer {T : Type}
  (existing other : ptr T) :
  gosettings.OverrideWithPointer existing other
  = gosettings.MergeWithPointer other existing.
Proof. destruct existing, other; reflexivity. Qed.

Lemma OverrideWithSlice_MergeWithSlice {T : Type}
  (existing other : slice T) :
  gosettings.OverrideWithSlice existing other
  = gosettings.MergeWithSlice other existing.
Proof. destruct existing, other; reflexivity. Qed.

(** X2: overriding [a] with [b] gives the values that merging [a] into [b]
    gives: the two operations are one, with the priorities exchanged. *)
Theorem overrideWith_is_mergeWith_swapped (a b : OpenVPN) :
  overrideWith a b = mergeWith b a.
Proof.
  unfold overrideWith, mergeWith.
  rewrite !OverrideWithString_MergeWithString,
    !OverrideWithPointer_MergeWithPointer,
    !OverrideWithSlice_MergeWithSlice.
  reflexivity.
Qed.

Lemma MergeWithString_assoc (a b c : string) :
  gosettings.MergeWithString (gosettings.MergeWithString a b) c
  = gosettings.MergeWithString a (gosettings.MergeWithString b c).
Proof.
  unfold gosettings.MergeWithString.
  destruct (String.eqb a "") eqn:Ha; [reflexivity|]. rewrite Ha.
  reflexivity.
Qed.

Lemma MergeWithPointer_assoc {T : Type} (a b c : ptr T) :
  gosettings.MergeWithPointer (gosettings.MergeWithPointer a b) c
  = gosettings.MergeWithPointer a (gosettings.MergeWithPointer b c).
Proof. destruct a, b, c; reflexivity. Qed.

Lemma MergeWithSlice_assoc {T : Type} (a b c : slice T) :
  gosettings.MergeWithSlice (gosettings.MergeWithSlice a b) c
  = gosettings.MergeWithSlice a (gosettings.MergeWithSlice b c).
Proof. destruct a, b, c; reflexivity. Qed.

Ltac record_fields :=
  cbn [Version User Password ConfFile Ciphers Auth Cert Key EncryptedKey
       KeyPassphrase PIAEncPreset MSSFix Interface ProcessUser Verbosity
       Flags].

(** X3: merging three fragments in the order of their priorities gives the
    same settings whichever two are merged first. *)
Theorem mergeWith_assoc (a b c : OpenVPN) :
  mergeWith (mergeWith a b) c = mergeWith a (mergeWith b c).
Proof.
  unfold mergeWith; record_fields.
  rewrite !MergeWithString_assoc, !MergeWithPointer_assoc,
    !MergeWithSlice_assoc.
  reflexivity.
Qed.

Lemma MergeWithString_empty_r (a : string) :
  gosettings.MergeWithString a "" = a.
Proof.
  unfold gosettings.MergeWithString.
  destruct (String.eqb_spec a ""); congruence.
Qed.

Lemma MergeWithString_same (a : string) :
  gosettings.MergeWithString a a = a.
Proof.
  unfold gosettings.MergeWithString. destruct (String.eqb a "");
    reflexivity.
Qed.

Lemma MergeWithPointer_nil_r {T : Type} (a : ptr T) :
  gosettings.MergeWithPointer a None = a.
Proof. destruct a; reflexivity. Qed.

Lemma MergeWithPointer_nil_l {T : Type} (a : ptr T) :
  gosettings.MergeWithPointer None a = a.
Proof. destruct a; reflexivity. Qed.

Lemma MergeWithPointer_same {T : Type} (a : ptr T) :
  gosettings.MergeWithPointer a a = a.
Proof. destruct a; reflexivity. Qed.

Lemma MergeWithSlice_nil_r {T : Type} (a : slice T) :
  gosettings.MergeWithSlice a None = a.
Proof. destruct a; reflexivity. Qed.

Lemma MergeWithSlice_nil_l {T : Type} (a : slice T) :
  gosettings.MergeWithSlice None a = a.
Proof. destruct a; reflexivity. Qed.

Lemma MergeWithSlice_same {T : Type} (a : slice T) :
  gosettings.MergeWithSlice a a = a.
Proof. destruct a; reflexivity. Qed.

(** X4: merging with the zero value, on either side, and merging settings
    with themselves change no value. *)
Theorem mergeWith_zero_value (a : OpenVPN) :
  mergeWith a OpenVPN_zero = a
  /\ mergeWith OpenVPN_zero a = a
  /\ mergeWith a a = a.
Proof.
  destruct a as [ver us pw cf ci au ce ke ek kp pr ms ifc pu vb fl].
  unfold mergeWith, OpenVPN_zero; record_fields.
  split; [|split].
  - rewrite !MergeWithString_empty_r, !MergeWithPointer_nil_r,
      !MergeWithSlice_nil_r.
    reflexivity.
  - rewrite !MergeWithPointer_nil_l, !MergeWithSlice_nil_l. reflexivity.
  - rewrite !MergeWithString_same, !MergeWithPointer_same,
      !MergeWithSlice_same.
    reflexivity.
Qed.

Lemma DefaultPointer_MergeWithPointer {T : Type} (p : ptr T) (d : T) :
  gosettings.DefaultPointer p d
  = gosettings.MergeWithPointer p (gosettings.DefaultPointer None d).
Proof. destruct p; reflexivity. Qed.

Lemma DefaultString_MergeWithString (s d : string) :
  gosettings.DefaultString s d
  = gosettings.MergeWithString s (gosettings.DefaultString "" d).
Proof. reflexivity. Qed.

(** X5: the defaults are a fragment of the lowest priority: [setDefaults]
    gives what merging the settings with the defaults of the zero value
    for the provider gives. *)
Theorem setDefaults_merges_defaults
  (K : Decls) (o : OpenVPN) (vpnProvider : string) :
  setDefaults K o vpnProvider
  = mergeWith o (setDefaults K OpenVPN_zero vpnProvider).
Proof.
  unfold setDefaults, mergeWith; record_fields.
  cbn [OpenVPN_zero Version User Password ConfFile Ciphers Auth Cert Key
       EncryptedKey KeyPassphrase PIAEncPreset MSSFix Interface ProcessUser
       Verbosity Flags].
  rewrite !MergeWithSlice_nil_r.
  destruct (String.eqb vpnProvider (Mullvad K));
    rewrite <- !DefaultPointer_MergeWithPointer,
      <- !DefaultString_MergeWithString;
    reflexivity.
Qed.

(** ** More of the updater settings *)

(** X18: what [read] gives depends on the settings it is given through the
    flag of Privado only; reading again changes nothing. *)
Theorem read_forgets_the_settings (s : updater.Updater) (r : updater.reader) :
  (forall s' : updater.Updater,
      updater.Privado s' = updater.Privado s ->
      updater.read s' r = updater.read s r)
  /\ updater.read (fst (updater.read s r)) r = updater.read s r.
Proof.
  assert (H : forall s' : updater.Updater,
             updater.Privado s' = updater.Privado s ->
             updater.read s' r = updater.read s r).
  { intros s' Hp. unfold updater.read. rewrite Hp. reflexivity. }
  split; [exact H|]. apply H. unfold updater.read.
  destruct (@updater.env_Duration (updater.env r) "UPDATER_PERIOD" "0")
    as [period [err|]]; reflexivity.
Qed.

(** ** More of the validation of the OpenVPN settings *)

Section ValidateMore.

Context (K : Decls) (W : World).

Ltac step :=
  match goal with
  | |- context [deref ?p] => is_var p; destruct p
  | |- context [match ?x with _ => _ end] =>
      lazymatch x with
      | context [match _ with _ => _ end] => fail
      | context [deref _] => fail
      | _ => destruct x eqn:?
      end
  end.

Ltac fields :=
  cbn [Version User Password ConfFile Ciphers Auth Cert Key EncryptedKey
       KeyPassphrase PIAEncPreset MSSFix Interface ProcessUser Verbosity
       Flags set_Verbosity].

Ltac open_validate :=
  unfold validate, passwordRequired, and_then, or_else, validate_IsOneOf;
  fields.

Lemma existsb_eqb_In (x : string) (l : list string) :
  existsb (String.eqb x) l = true <-> In x l.
Proof.
  rewrite existsb_exists. split.
  - intros (y & Hy & Heq). apply String.eqb_eq in Heq. subst. exact Hy.
  - intros H. exists x. split; [exact H | apply String.eqb_refl].
Qed.

Lemma base64_error_None (s : string) :
  base64_error W s = None <-> base64.DecodeString s <> None.
Proof.
  unfold base64_error. destruct (base64.DecodeString s); split;
    congruence.
Qed.

Lemma ConfigFilepath_None (c : bool) (f : string) :
  validateOpenVPNConfigFilepath K W c f = None
  <-> (c = true ->
       f <> "" /\ FileExists W f = None /\ extractor_Data W f = None).
Proof.
  unfold validateOpenVPNConfigFilepath. destruct c; cbn [negb].
  - destruct (String.eqb_spec f "") as [->|Hf].
    + split; [discriminate|]. intros H. destruct (H eq_refl) as [H' _].
      congruence.
    + destruct (FileExists W f); [split; [discriminate|];
        intros H; destruct (H eq_refl) as (_ & H' & _); discriminate|].
      destruct (extractor_Data W f); [split; [discriminate|];
        intros H; destruct (H eq_refl) as (_ & _ & H'); discriminate|].
      split; auto.
  - split; [discriminate | reflexivity].
Qed.

Lemma required_blob_None (required : bool) (blob : string) :
  (if required && String.eqb blob ""
   then Some (Errorf_w "" (sentinel K ErrMissingValue))
   else if String.eqb blob "" then None else base64_error W blob) = None
  <-> (required = true -> blob <> "") /\ blob_ok blob.
Proof.
  unfold blob_ok. destruct (String.eqb_spec blob "") as [->|Hb].
  - destruct required; cbn [andb].
    + split; [discriminate|]. intros [H _]. exfalso. apply H; reflexivity.
    + split; [|reflexivity]. intros _. split; [discriminate|congruence].
  - rewrite andb_false_r, base64_error_None. split.
    + intros H. split; auto.
    + intros [_ H]. apply H, Hb.
Qed.

Lemma ClientCertificate_None (p cert : string) :
  validateOpenVPNClientCertificate K W p cert = None
  <-> (In p (certificate_providers K) -> cert <> "") /\ blob_ok cert.
Proof.
  unfold validateOpenVPNClientCertificate. rewrite required_blob_None.
  rewrite <- (existsb_eqb_In p (certificate_providers K)).
  cbn [existsb certificate_providers]. rewrite orb_false_r, !orb_assoc.
  reflexivity.
Qed.

Lemma ClientKey_None (p key : string) :
  validateOpenVPNClientKey K W p key = None
  <-> (In p (key_providers K) -> key <> "") /\ blob_ok key.
Proof.
  unfold validateOpenVPNClientKey. rewrite required_blob_None.
  rewrite <- (existsb_eqb_In p (key_providers K)).
  cbn [existsb key_providers]. rewrite orb_false_r, !orb_assoc.
  reflexivity.
Qed.

Lemma EncryptedKey_None (p key : string) :
  validateOpenVPNEncryptedKey K W p key = None
  <-> (p = VPNSecure K -> key <> "") /\ blob_ok key.
Proof.
  unfold validateOpenVPNEncryptedKey. rewrite required_blob_None.
  rewrite String.eqb_eq. reflexivity.
Qed.

Lemma bind_Ret_inv {A B : Type} (m : go A) (k : A -> go B) (b : B) :
  bind m k = Ret b -> exists a, m = Ret a /\ k a = Ret b.
Proof. destruct m as [a|]; [|discriminate]. intros H. exists a. auto. Qed.

(** A guarded test on a string behind a pointer is false when the guard
    is off, or the pointer is set and the string is not empty. *)
Lemma and_then_empty (guard : bool) (p : ptr string) :
  and_then guard (bind (deref p) (fun s => Ret (String.eqb s "")))
  = Ret false
  <-> (guard = true -> exists s, p = Some s /\ s <> "").
Proof.
  destruct guard; cbn [and_then].
  - destruct p as [s|]; cbn [deref bind].
    + destruct (String.eqb_spec s "") as [->|Hs]; split.
      * discriminate.
      * intros H. destruct (H eq_refl) as (s & [= <-] & Hs). congruence.
      * intros _ _. exists s. auto.
      * reflexivity.
    + split; [discriminate|]. intros H.
      destruct (H eq_refl) as (s & Hs & _). discriminate.
  - split; [discriminate | reflexivity].
Qed.

(** X7: [validate] returns no error exactly on the settings that are
    accepted: a valid version; a user, and a password, set and not empty
    when required; the other pointers that it dereferences set; for the
    provider custom a configuration file that exists and parses; the
    certificate, the key and the encrypted key not empty for the providers
    that require them, and standard base64 when not empty; a passphrase
    with an encrypted key; an MSS fix of 10000 at most; an interface name
    that matches the pattern; a verbosity from 0 to 6. *)
Theorem validate_accepts (o : OpenVPN) (p : string) :
  validate K W o p = Ret None <-> accepted K W o p.
Proof.
  destruct o as [ver us pw cf ci au ce ke ek kp pr ms ifc pu vb fl].
  unfold accepted, validate; fields. unfold validate_IsOneOf.
  set (o := mkOpenVPN ver us pw cf ci au ce ke ek kp pr ms ifc pu vb fl).
  split.
  - destruct (existsb (String.eqb ver) [Openvpn25 K; Openvpn26 K]) eqn:Hver;
      [|discriminate].
    apply existsb_eqb_In in Hver. intros H. split; [exact Hver|].
    apply bind_Ret_inv in H. destruct H as (b1 & Huser & H).
    destruct b1; [discriminate|].
    pose proof (proj1 (and_then_empty _ _) Huser) as Huser'. clear Huser.
    rename Huser' into Huser.
    split; [exact Huser|].
    apply bind_Ret_inv in H. destruct H as (required & Hrequired & H).
    apply bind_Ret_inv in H. destruct H as (b2 & Hpassword & H).
    destruct b2; [discriminate|].
    pose proof (proj1 (and_then_empty _ _) Hpassword) as Hpassword'.
    clear Hpassword. rename Hpassword' into Hpassword.
    split; [intros Hr; apply Hpassword; congruence|].
    apply bind_Ret_inv in H. destruct H as (confFile & Hcf & H).
    destruct (validateOpenVPNConfigFilepath K W (isCustom K p) confFile)
      eqn:Hconf; [discriminate|].
    apply bind_Ret_inv in H. destruct H as (cert & Hce & H).
    destruct (validateOpenVPNClientCertificate K W p cert) eqn:Hcert;
      [discriminate|].
    apply bind_Ret_inv in H. destruct H as (key & Hke & H).
    destruct (validateOpenVPNClientKey K W p key) eqn:Hkey; [discriminate|].
    apply bind_Ret_inv in H. destruct H as (encryptedKey & Hek & H).
    destruct (validateOpenVPNEncryptedKey K W p encryptedKey) eqn:Henc;
      [discriminate|].
    apply bind_Ret_inv in H. destruct H as (b3 & Hpass & H).
    destruct b3; [discriminate|].
    pose proof (proj1 (and_then_empty _ _) Hpass) as Hpass'. clear Hpass.
    rename Hpass' into Hpass.
    apply bind_Ret_inv in H. destruct H as (mssFix & Hms & H).
    destruct (maxMSSFix <? mssFix) eqn:Hmss; [discriminate|].
    destruct (MatchString (regexpInterfaceName K) ifc) eqn:Hifc;
      [|discriminate].
    cbn [negb] in H.
    apply bind_Ret_inv in H. destruct H as (verbosity & Hvb & H).
    destruct ((verbosity <? 0) || (6 <? verbosity)) eqn:Hv; [discriminate|].
    destruct cf, ce, ke, ek, ms, vb; try discriminate.
    all: cbn [deref] in *; injection Hcf as <-; injection Hce as <-;
      injection Hke as <-; injection Hek as <-; injection Hms as <-;
      injection Hvb as <-.
    all: do 6 eexists.
    all: pose proof (proj1 (ConfigFilepath_None _ _) Hconf) as Hconf';
      clear Hconf; rename Hconf' into Hconf;
      apply ClientCertificate_None in Hcert;
      apply ClientKey_None in Hkey; apply EncryptedKey_None in Henc;
      destruct Hcert, Hkey, Henc; apply Z.ltb_ge in Hmss;
      apply orb_false_iff in Hv; destruct Hv as [Hv1 Hv2];
      apply Z.ltb_ge in Hv1, Hv2; unfold maxMSSFix in Hmss.
    all: repeat (split; [reflexivity|]).
    all: split; [intros ->; apply Hconf, String.eqb_refl|].
    all: repeat (split; [try assumption|]); try lia.
    all: intros Hne; apply Hpass, negb_true_iff, String.eqb_neq, Hne.
  - intros (Hver & Huser & Hpassword & confFile & cert & key & encryptedKey
            & mssFix & verbosity & -> & -> & -> & -> & -> & -> & Hconf
            & Hcert & Hcertok & Hkey & Hkeyok & Henc & Hencok & Hpass
            & Hmss & Hifc & Hv).
    apply existsb_eqb_In in Hver. rewrite Hver.
    rewrite (proj2 (and_then_empty _ _) Huser). cbn [bind].
    assert (Hrequired : exists required,
               passwordRequired K o p = Ret required).
    { unfold passwordRequired, and_then, or_else; subst o; fields.
      destruct (isUserRequired K p); [|eauto].
      destruct (Huser eq_refl) as (user & -> & _). cbn [deref bind].
      destruct (negb (String.eqb p (Ivpn K))); eauto. }
    destruct Hrequired as (required & Hrequired).
    rewrite Hrequired in *. cbn [bind].
    rewrite (proj2 (and_then_empty required pw)); cbn [bind deref].
    2:{ intros ->. apply Hpassword. reflexivity. }
    rewrite (proj2 (ConfigFilepath_None _ _)).
    2:{ intros Hc. apply Hconf, String.eqb_eq, Hc. }
    rewrite (proj2 (ClientCertificate_None _ _) (conj Hcert Hcertok)).
    rewrite (proj2 (ClientKey_None _ _) (conj Hkey Hkeyok)).
    rewrite (proj2 (EncryptedKey_None _ _) (conj Henc Hencok)).
    rewrite (proj2 (and_then_empty _ kp)); cbn [bind].
    2:{ intros Hne. apply Hpass, String.eqb_neq, negb_true_iff, Hne. }
    unfold maxMSSFix.
    replace (10000 <? mssFix) with false by (symmetry; apply Z.ltb_ge; lia).
    rewrite Hifc. cbn [negb].
    replace (verbosity <? 0) with false by (symmetry; apply Z.ltb_ge; lia).
    replace (6 <? verbosity) with false by (symmetry; apply Z.ltb_ge; lia).
    reflexivity.
Qed.
Lemma and_then_empty_true (guard : bool) (p : ptr string) :
  and_then guard (bind (deref p) (fun s => Ret (String.eqb s "")))
  = Ret true -> guard = true /\ p = Some "".
Proof.
  destruct guard; cbn [and_then]; [|discriminate].
  destruct p as [s|]; cbn [deref bind]; [|discriminate].
  destruct (String.eqb_spec s "") as [->|]; [auto | discriminate].
Qed.

Lemma errors_Is_sentinel (X s : Sentinel) :
  errors_Is (sentinel K X) s = true -> s = X.
Proof. destruct X, s; cbn; intros H; try discriminate H; reflexivity. Qed.

Lemma required_blob_cause
  (required : bool) (blob : string) (err : error) (s : Sentinel) :
  (if required && String.eqb blob ""
   then Some (Errorf_w "" (sentinel K ErrMissingValue))
   else if String.eqb blob "" then None else base64_error W blob)
  = Some err ->
  errors_Is err s = true ->
  s = ErrMissingValue /\ required = true /\ blob = "".
Proof.
  destruct (String.eqb_spec blob "") as [->|Hb].
  - destruct required; cbn [andb]; [|discriminate].
    intros [= <-] Hs. apply errors_Is_sentinel in Hs. auto.
  - rewrite andb_false_r. intros Herr Hs.
    apply base64_error_wraps in Herr. unfold errors_Is in Hs.
    rewrite Herr in Hs. discriminate.
Qed.

Lemma ConfigFilepath_cause
  (c : bool) (f : string) (err : error) (s : Sentinel) :
  validateOpenVPNConfigFilepath K W c f = Some err ->
  errors_Is err s = true ->
  s = ErrFilepathMissing /\ c = true /\ f = "".
Proof.
  unfold validateOpenVPNConfigFilepath. destruct c; cbn [negb];
    [|discriminate].
  destruct (String.eqb_spec f "") as [->|Hf].
  - intros [= <-] Hs. apply errors_Is_sentinel in Hs. auto.
  - destruct (FileExists W f); [intros [= <-]; discriminate|].
    destruct (extractor_Data W f); [intros [= <-]; discriminate|].
    discriminate.
Qed.

(** X8: an error of [validate] that wraps a sentinel tells the cause that
    goes with the sentinel: the version that is not valid, the user or the
    password that is required and empty, the configuration file that is
    missing for the provider custom, the certificate, key or encrypted key
    that is missing for a provider that requires it, the passphrase that
    is missing with an encrypted key, the MSS fix over 10000, the
    interface name off the pattern, the verbosity out of its bounds. *)
Theorem validate_error_cause
  (o : OpenVPN) (p : string) (err : error) (s : Sentinel) :
  validate K W o p = Ret (Some err) -> errors_Is err s = true ->
  cause K o p s.
Proof.
  destruct o as [ver us pw cf ci au ce ke ek kp pr ms ifc pu vb fl].
  unfold validate; fields. unfold validate_IsOneOf.
  set (o := mkOpenVPN ver us pw cf ci au ce ke ek kp pr ms ifc pu vb fl).
  destruct (existsb (String.eqb ver) [Openvpn25 K; Openvpn26 K]) eqn:Hver.
  2:{ intros [= <-] Hs. unfold errors_Is in Hs; cbn in Hs.
      rewrite orb_false_r in Hs.
      destruct s; try discriminate Hs. cbn [cause Version o].
      intros Hin. apply existsb_eqb_In in Hin. congruence. }
  intros H.
  apply bind_Ret_inv in H. destruct H as (b1 & Huser & H).
  destruct b1.
  { injection H as <-. intros Hs. apply errors_Is_sentinel in Hs. subst s.
    apply and_then_empty_true in Huser. exact Huser. }
  apply bind_Ret_inv in H. destruct H as (required & Hrequired & H).
  apply bind_Ret_inv in H. destruct H as (b2 & Hpassword & H).
  destruct b2.
  { injection H as <-. intros Hs. apply errors_Is_sentinel in Hs. subst s.
    apply and_then_empty_true in Hpassword. destruct Hpassword as [-> Hpw].
    split; assumption. }
  apply bind_Ret_inv in H. destruct H as (confFile & Hcf & H).
  destruct cf as [cf|]; [|discriminate]. injection Hcf as <-.
  destruct (validateOpenVPNConfigFilepath K W (isCustom K p) cf) eqn:Hconf.
  { injection H as <-. rewrite errors_Is_Errorf_w. intros Hs.
    destruct (ConfigFilepath_cause _ _ _ _ Hconf Hs) as (-> & Hc & ->).
    split; [apply String.eqb_eq, Hc | reflexivity]. }
  apply bind_Ret_inv in H. destruct H as (cert & Hce & H).
  destruct ce as [ce|]; [|discriminate]. injection Hce as <-.
  destruct (validateOpenVPNClientCertificate K W p ce) eqn:Hcert.
  { injection H as <-. rewrite errors_Is_Errorf_w. intros Hs.
    destruct (required_blob_cause _ _ _ _ Hcert Hs) as (-> & Hp & ->).
    left. split; [|reflexivity]. apply existsb_eqb_In.
    cbn [existsb certificate_providers]. rewrite orb_false_r, !orb_assoc.
    exact Hp. }
  apply bind_Ret_inv in H. destruct H as (key & Hke & H).
  destruct ke as [ke|]; [|discriminate]. injection Hke as <-.
  destruct (validateOpenVPNClientKey K W p ke) eqn:Hkey.
  { injection H as <-. rewrite errors_Is_Errorf_w. intros Hs.
    destruct (required_blob_cause _ _ _ _ Hkey Hs) as (-> & Hp & ->).
    right; left. split; [|reflexivity]. apply existsb_eqb_In.
    cbn [existsb key_providers]. rewrite orb_false_r, !orb_assoc.
    exact Hp. }
  apply bind_Ret_inv in H. destruct H as (encryptedKey & Hek & H).
  destruct ek as [ek|]; [|discriminate]. injection Hek as <-.
  destruct (validateOpenVPNEncryptedKey K W p ek) eqn:Henc.
  { injection H as <-. rewrite errors_Is_Errorf_w. intros Hs.
    destruct (required_blob_cause _ _ _ _ Henc Hs) as (-> & Hp & ->).
    right; right. split; [apply String.eqb_eq, Hp | reflexivity]. }
  apply bind_Ret_inv in H. destruct H as (b3 & Hpass & H).
  destruct b3.
  { injection H as <-. intros Hs. apply errors_Is_sentinel in Hs. subst s.
    apply and_then_empty_true in Hpass. destruct Hpass as [Hne ->].
    split; [|reflexivity]. exists ek. split; [reflexivity|].
    apply String.eqb_neq, negb_true_iff, Hne. }
  apply bind_Ret_inv in H. destruct H as (mssFix & Hms & H).
  destruct ms as [ms|]; [|discriminate]. injection Hms as <-.
  destruct (maxMSSFix <? ms) eqn:Hmss.
  { injection H as <-. intros Hs. apply errors_Is_sentinel in Hs. subst s.
    exists ms. split; [reflexivity|]. apply Z.ltb_lt in Hmss. exact Hmss. }
  destruct (MatchString (regexpInterfaceName K) ifc) eqn:Hifc; cbn [negb] in H.
  2:{ injection H as <-. intros Hs. apply errors_Is_sentinel in Hs. subst s.
      exact Hifc. }
  apply bind_Ret_inv in H. destruct H as (verbosity & Hvb & H).
  destruct vb as [vb|]; [|discriminate]. injection Hvb as <-.
  destruct ((vb <? 0) || (6 <? vb)) eqn:Hv; [|discriminate].
  injection H as <-. intros Hs. apply errors_Is_sentinel in Hs. subst s.
  exists vb. split; [reflexivity|]. apply orb_true_iff in Hv.
  destruct Hv as [Hv|Hv]; apply Z.ltb_lt in Hv; lia.
Qed.

Ltac foreign_error :=
  rewrite errors_Is_Errorf_w;
  first
    [ erewrite ConfigFilepath_error by (eassumption || reflexivity)
    | erewrite ClientCertificate_error by (eassumption || reflexivity)
    | erewrite ClientKey_error by (eassumption || reflexivity)
    | erewrite EncryptedKey_error by (eassumption || reflexivity) ].

(** X6: the version is checked first and alone: whatever the other fields
    hold, nil pointers too, [validate] fails with the sentinel of the
    version exactly when the version is neither of the two versions. *)
Theorem version_checked_first (o : OpenVPN) (p : string) :
  fails_with (validate K W o p) ErrOpenVPNVersionIsNotValid
  = negb (existsb (String.eqb (Version o)) [Openvpn25 K; Openvpn26 K]).
Proof.
  destruct o as [ver us pw cf ci au ce ke ek kp pr ms ifc pu vb fl].
  open_validate.
  destruct (existsb (String.eqb ver) [Openvpn25 K; Openvpn26 K]);
    [|reflexivity].
  cbn [negb].
  repeat (step; cbn [bind deref fails_with]; try reflexivity;
          try (foreign_error; reflexivity)).
Qed.

(** X9: the other checks passing, [validate] fails on the MSS fix exactly
    when it is over 10000, with a message that gives the value and the
    bound. *)
Theorem mssfix_bound (o : OpenVPN) (p : string) (mssFix : Z) :
  validate K W (set_MSSFix o (Some 0)) p = Ret None ->
  validate K W (set_MSSFix o (Some mssFix)) p
  = if 10000 <? mssFix
    then Ret (Some (mkError [ErrOpenVPNMSSFixIsTooHigh]
                      (sentinel_message K ErrOpenVPNMSSFixIsTooHigh
                       ++ ": " ++ fmt_d mssFix
                       ++ " is over the maximum value of 10000")))
    else Ret None.
Proof.
  destruct o as [ver us pw cf ci au ce ke ek kp pr ms ifc pu vb fl].
  open_validate. cbn [set_MSSFix MSSFix Version User Password ConfFile Cert
    Key EncryptedKey KeyPassphrase Interface Verbosity].
  change (maxMSSFix <? 0) with false. change maxMSSFix with 10000.
  repeat (step; cbn [bind deref]; try (intros Heq; discriminate Heq);
          try reflexivity).
Qed.

(** X10: for a provider that requires no user (custom, Airvpn, VPNSecure)
    [validate] looks neither at the user nor at the password: it gives the
    same result whatever the two pointers are, nil too. *)
Theorem credentials_ignored (o : OpenVPN) (p : string)
  (user password : ptr string) :
  isUserRequired K p = false ->
  validate K W (set_credentials o user password) p = validate K W o p.
Proof.
  intros Hreq. unfold validate, passwordRequired, and_then.
  rewrite Hreq. reflexivity.
Qed.

(** X11: for a provider that is not custom, [validate] depends neither on
    the file system nor on the path of the configuration file. *)
Theorem files_ignored (o : OpenVPN) (p : string)
  (fileExists data : string -> option string) (path path' : string) :
  p <> Custom K ->
  validate K (with_files W fileExists data) o p = validate K W o p
  /\ validate K W (set_ConfFile o (Some path)) p
     = validate K W (set_ConfFile o (Some path')) p.
Proof.
  intros Hp. apply String.eqb_neq in Hp.
  unfold validate, validateOpenVPNConfigFilepath, isCustom.
  rewrite Hp. cbn [negb]. split; reflexivity.
Qed.

(** X12: for the provider custom and a valid version, whatever the user
    and the password, [validate] fails on an empty path with the sentinel
    of the missing file path, on a file that does not exist with the error
    of the file system as it is, and on a file that does not parse with
    the error of the extraction, each under "custom configuration
    file: ". *)
Theorem custom_configuration_file (o : OpenVPN) (confFile : string) :
  In (Version o) [Openvpn25 K; Openvpn26 K] ->
  ConfFile o = Some confFile ->
  (confFile = "" ->
   validate K W o (Custom K)
   = Ret (Some (mkError [ErrFilepathMissing]
                  ("custom configuration file: "
                   ++ sentinel_message K ErrFilepathMissing))))
  /\ (forall message,
        confFile <> "" -> FileExists W confFile = Some message ->
        validate K W o (Custom K)
        = Ret (Some (mkError []
                       ("custom configuration file: " ++ message))))
  /\ (forall message,
        confFile <> "" -> FileExists W confFile = None ->
        extractor_Data W confFile = Some message ->
        validate K W o (Custom K)
        = Ret (Some (mkError []
                       ("custom configuration file: "
                        ++ ("extracting information from custom "
                            ++ "configuration file: ")
                        ++ message)))).
Proof.
  destruct o as [ver us pw cf ci au ce ke ek kp pr ms ifc pu vb fl].
  fields. intros Hver ->. apply existsb_eqb_In in Hver.
  unfold validate, validate_IsOneOf; fields. rewrite Hver.
  unfold passwordRequired, and_then, isUserRequired, isCustom.
  rewrite String.eqb_refl. cbn [negb andb bind deref].
  unfold validateOpenVPNConfigFilepath. cbn [negb].
  split; [|split].
  - intros ->. reflexivity.
  - intros message Hne Hfile. apply String.eqb_neq in Hne.
    rewrite Hne, Hfile. reflexivity.
  - intros message Hne Hfile Hdata. apply String.eqb_neq in Hne.
    rewrite Hne, Hfile, Hdata. reflexivity.
Qed.

(** X23: [validate] looks at the version, user, password, configuration
    file, certificate, key, encrypted key, passphrase, MSS fix, interface
    and verbosity only: settings that agree on them get the same result,
    whatever their ciphers, auth, encryption preset, process user and
    flags. *)
Theorem validate_ignores_unchecked_fields (o o' : OpenVPN) (p : string) :
  (forall f : Field,
      match f with
      | FCiphers | FAuth | FPIAEncPreset | FProcessUser | FFlags => True
      | _ => field f o = field f o'
      end) ->
  validate K W o p = validate K W o' p.
Proof.
  intros H.
  pose proof (H FVersion) as HVersion. pose proof (H FUser) as HUser.
  pose proof (H FPassword) as HPassword.
  pose proof (H FConfFile) as HConfFile. pose proof (H FCert) as HCert.
  pose proof (H FKey) as HKey.
  pose proof (H FEncryptedKey) as HEncryptedKey.
  pose proof (H FKeyPassphrase) as HKeyPassphrase.
  pose proof (H FMSSFix) as HMSSFix. pose proof (H FInterface) as HInterface.
  pose proof (H FVerbosity) as HVerbosity. clear H.
  destruct o as [ver us pw cf ci au ce ke ek kp pr ms ifc pu vb fl].
  destruct o' as [ver' us' pw' cf' ci' au' ce' ke' ek' kp' pr' ms' ifc' pu'
                  vb' fl'].
  cbn [field Version User Password ConfFile Cert Key EncryptedKey
       KeyPassphrase MSSFix Interface Verbosity] in *.
  injection HVersion as ->. injection HUser as ->.
  injection HPassword as ->. injection HConfFile as ->.
  injection HCert as ->. injection HKey as ->.
  injection HEncryptedKey as ->. injection HKeyPassphrase as ->.
  injection HMSSFix as ->. injection HInterface as ->.
  injection HVerbosity as ->.
  reflexivity.
Qed.

(** X16: [toLinesNode] dereferences a nil pointer exactly when one of the
    user, password, configuration file, auth, certificate, key, encrypted
    key, encryption preset, MSS fix and verbosity is nil, or the encrypted
    key is not empty and the passphrase is nil: a nil passphrase is
    harmless with an empty encrypted key, and so are nil ciphers and
    flags. *)
Theorem toLinesNode_panics (ObfuscateKey : gosettings.Obfuscator)
  (o : OpenVPN) :
  panics (toLinesNode ObfuscateKey o) = negb (renderable o).
Proof.
  destruct o as [ver us pw cf ci au ce ke ek kp pr ms ifc pu vb fl].
  unfold toLinesNode, renderable; fields.
  destruct us; [|reflexivity]. destruct pw; [|reflexivity].
  destruct cf; [|reflexivity]. destruct au; [|reflexivity].
  destruct ce; [|reflexivity]. destruct ke; [|reflexivity].
  destruct ek as [ek|]; [|reflexivity].
  cbn [deref bind is_nil negb andb].
  destruct (String.eqb ek ""); cbn [negb orb bind].
  - destruct pr; [|reflexivity]. destruct ms; [|reflexivity].
    destruct vb; reflexivity.
  - destruct kp; [|reflexivity]. cbn [deref bind is_nil negb].
    destruct pr; [|reflexivity]. destruct ms; [|reflexivity].
    destruct vb; reflexivity.
Qed.

Lemma default_version_valid :
  existsb (String.eqb (gosettings.DefaultString "" (Openvpn25 K)))
    [Openvpn25 K; Openvpn26 K] = true.
Proof.
  unfold gosettings.DefaultString. cbn [String.eqb existsb].
  rewrite String.eqb_refl. reflexivity.
Qed.

(** X13: the defaults alone are not valid for a provider that requires a
    user: [validate] on the defaults of the zero value fails with the
    sentinel of the empty user. *)
Theorem defaults_lack_a_user (p : string) :
  isUserRequired K p = true ->
  validate K W (setDefaults K OpenVPN_zero p) p
  = Ret (Some (mkError [ErrOpenVPNUserIsEmpty]
                 (sentinel_message K ErrOpenVPNUserIsEmpty))).
Proof.
  intros Hreq. unfold validate, validate_IsOneOf, setDefaults; fields.
  cbn [OpenVPN_zero Version User]. rewrite default_version_valid.
  unfold and_then. rewrite Hreq. reflexivity.
Qed.

(** X14: with a user and no password, after [setDefaults], [validate]
    for a provider that requires a user and is not Ivpn fails on the empty
    password exactly when the provider is not Mullvad, for which the
    password defaults to "m". *)
Theorem default_password (p user : string) :
  isUserRequired K p = true -> p <> Ivpn K -> user <> "" ->
  fails_with
    (validate K W
       (setDefaults K (set_credentials OpenVPN_zero (Some user) None) p) p)
    ErrOpenVPNPasswordIsEmpty
  = negb (String.eqb p (Mullvad K)).
Proof.
  intros Hreq Hivpn Huser.
  apply String.eqb_neq in Hivpn, Huser.
  unfold validate, validate_IsOneOf, setDefaults, passwordRequired; fields.
  cbn [OpenVPN_zero set_credentials Version User Password ConfFile Cert Key
       EncryptedKey KeyPassphrase MSSFix Interface Verbosity
       gosettings.DefaultPointer].
  rewrite default_version_valid.
  unfold and_then, or_else. rewrite Hreq. cbn [deref bind].
  rewrite Huser, Hivpn. cbn [negb bind].
  destruct (String.eqb p (Mullvad K)); cbn [deref bind negb String.eqb];
    [|reflexivity].
  change (String.eqb "m" "") with false. cbn [bind].
  repeat (step; cbn [bind deref fails_with]; try reflexivity;
          try (foreign_error; reflexivity)).
Qed.

(** X15: when Mullvad is none of the providers with requirements of their
    own and the default interface name tun0 matches the pattern, a user
    that is not empty is all that valid settings for Mullvad need:
    [setDefaults] gives the rest. *)
Theorem mullvad_user_is_enough (user : string) :
  user <> "" ->
  ~ In (Mullvad K)
      [Custom K; Airvpn K; Cyberghost K; VPNSecure K; VPNUnlimited K;
       Wevpn K] ->
  MatchString (regexpInterfaceName K) "tun0" = true ->
  validate K W
    (setDefaults K (set_credentials OpenVPN_zero (Some user) None)
       (Mullvad K))
    (Mullvad K)
  = Ret None.
Proof.
  intros Huser Hother Hifc. apply String.eqb_neq in Huser.
  assert (Hne : forall q,
             In q [Custom K; Airvpn K; Cyberghost K; VPNSecure K;
                   VPNUnlimited K; Wevpn K] ->
             String.eqb (Mullvad K) q = false).
  { intros q Hq. apply String.eqb_neq. intros Heq. apply Hother.
    rewrite Heq. exact Hq. }
  unfold validate, validate_IsOneOf, setDefaults, passwordRequired; fields.
  cbn [OpenVPN_zero set_credentials Version User Password ConfFile Cert Key
       EncryptedKey KeyPassphrase MSSFix Interface Verbosity
       gosettings.DefaultPointer].
  rewrite default_version_valid, String.eqb_refl.
  unfold isUserRequired, isCustom, and_then, or_else,
    validateOpenVPNConfigFilepath, validateOpenVPNClientCertificate,
    validateOpenVPNClientKey, validateOpenVPNEncryptedKey.
  rewrite (Hne (Custom K)), (Hne (Airvpn K)), (Hne (Cyberghost K)),
    (Hne (VPNSecure K)), (Hne (VPNUnlimited K)), (Hne (Wevpn K))
    by (cbn; tauto).
  cbn [negb andb orb deref bind]. rewrite Huser. cbn [bind].
  destruct (negb (String.eqb (Mullvad K) (Ivpn K)));
    [|destruct (negb (MatchString ivpnAccountID user))];
    cbn [bind deref]; change (String.eqb "m" "") with false;
    cbn [bind String.eqb negb andb];
    unfold gosettings.DefaultString; cbn [String.eqb];
    rewrite Hifc; reflexivity.
Qed.

End ValidateMore.

(** ** Reading the settings from the environment *)

Section Readers.

Context (s : env.Source).

Lemma length_assign {A : Type} (l : list A) (i : nat) (x : A) :
  length (env.assign l i x) = length l.
Proof.
  revert i. induction l as [|y l IH]; intros [|i]; cbn; auto.
Qed.

Lemma nth_error_assign_same {A : Type} (l : list A) (i : nat) (x : A) :
  (i < length l)%nat -> nth_error (env.assign l i x) i = Some x.
Proof.
  revert i. induction l as [|y l IH]; intros [|i]; cbn; try lia; auto.
  intros Hi. apply IH. lia.
Qed.

Lemma nth_error_assign_other {A : Type} (l : list A) (i j : nat) (x : A) :
  i <> j -> nth_error (env.assign l i x) j = nth_error l j.
Proof.
  revert i j. induction l as [|y l IH]; intros [|i] [|j] Hij; cbn; auto;
    congruence.
Qed.

(** The loop from the index [i] on: it leaves the networks before [i] as
    they are, and either fills the others in order, or ends on the first
    string that does not parse. *)
Lemma parseCIDRs_result (key : string) (strings : list string) :
  forall (i : nat) (networks : list wireguard.IPNet),
    length networks = (i + length strings)%nat ->
    match env.parseCIDRs s key i strings networks with
    | (Some result, None) =>
        length result = length networks
        /\ (forall k, (k < i)%nat ->
                      nth_error result k = nth_error networks k)
        /\ forall (j : nat) (text : string),
             nth_error strings j = Some text ->
             exists ip ipNet,
               env.ParseCIDR s (env.TrimSpace s text) = inl (ip, ipNet)
               /\ nth_error result (i + j)
                  = Some (wireguard.mkIPNet ip (wireguard.Mask ipNet))
    | (None, Some err) => first_parse_error s key strings err
    | _ => False
    end.
Proof.
  induction strings as [|text strings IH]; intros i networks Hlen;
    cbn [env.parseCIDRs].
  - split; [reflexivity|]. split; [reflexivity|].
    intros [|j] text H; discriminate H.
  - destruct (env.ParseCIDR s (env.TrimSpace s text))
      as [[ip ipNet]|message] eqn:Hparse.
    + specialize (IH (S i)
                    (env.assign networks i
                       (wireguard.mkIPNet ip (wireguard.Mask ipNet)))).
      rewrite length_assign in IH. cbn [length] in Hlen.
      specialize (IH ltac:(lia)).
      destruct (env.parseCIDRs s key (S i) strings _)
        as [[result|] [err|]]; try contradiction.
      * destruct IH as (Hl & Hkeep & Hfill). split; [exact Hl|]. split.
        -- intros k Hk. rewrite Hkeep by lia.
           apply nth_error_assign_other. lia.
        -- intros [|j] text' Hj; cbn [nth_error] in Hj.
           ++ injection Hj as <-. exists ip, ipNet. split; [exact Hparse|].
              rewrite Nat.add_0_r, Hkeep by lia.
              apply nth_error_assign_same. lia.
           ++ destruct (Hfill j text' Hj) as (ip' & ipNet' & Hp & Hn).
              exists ip', ipNet'. split; [exact Hp|].
              rewrite <- Hn. f_equal. lia.
      * destruct IH as (j & text' & message & Hj & Hp & Hbefore & ->).
        exists (S j), text', message. repeat split; auto.
        intros [|j'] text'' Hlt Hj'; cbn [nth_error] in Hj'.
        -- injection Hj' as <-. eauto.
        -- apply (Hbefore j' text''); [lia | exact Hj'].
    + exists O, text, message. repeat split; auto.
      intros j' text' Hlt. lia.
Qed.

Lemma parseCIDRs_from_start (key : string) (strings : list string) :
  match env.parseCIDRs s key 0 strings
          (env.make_IPNets (length strings)) with
  | (Some result, None) => parsed_in_order s strings result
  | (None, Some err) => first_parse_error s key strings err
  | _ => False
  end.
Proof.
  pose proof (parseCIDRs_result key strings 0
                (env.make_IPNets (length strings))) as H.
  unfold env.make_IPNets in *. rewrite repeat_length in H.
  specialize (H eq_refl).
  destruct (env.parseCIDRs s key 0 strings _) as [[result|] [err|]];
    try contradiction; [|exact H].
  destruct H as (Hl & _ & Hfill). split; [exact Hl | exact Hfill].
Qed.

(** X19: [readWireguardAllowedIPs] gives nothing, and no error, when the list
    of the variable is empty; otherwise it gives either one network for
    each string of the list, in order, with the address as it was parsed,
    or no network at all and the error of the first string that does not
    parse, under the name of the variable. *)
Theorem readWireguardAllowedIPs_result :
  match env.readWireguardAllowedIPs s with
  | (None, None) => len (env.envToCSV s "WIREGUARD_ALLOWED_IPS") = O
  | (Some networks, None) =>
      exists strings,
        env.envToCSV s "WIREGUARD_ALLOWED_IPS" = Some strings
        /\ networks <> [] /\ parsed_in_order s strings networks
  | (None, Some err) =>
      exists strings,
        env.envToCSV s "WIREGUARD_ALLOWED_IPS" = Some strings
        /\ first_parse_error s "WIREGUARD_ALLOWED_IPS" strings err
  | (Some _, Some _) => False
  end.
Proof.
  unfold env.readWireguardAllowedIPs.
  destruct (env.envToCSV s "WIREGUARD_ALLOWED_IPS") as [strings|];
    [|reflexivity].
  cbn [len]. destruct strings as [|text strings]; [reflexivity|].
  cbn [Nat.eqb length].
  pose proof (parseCIDRs_from_start "WIREGUARD_ALLOWED_IPS"
                (text :: strings)) as H.
  cbn [length] in H.
  destruct (env.parseCIDRs s "WIREGUARD_ALLOWED_IPS" 0 (text :: strings) _)
    as [[result|] [err|]]; try contradiction.
  - exists (text :: strings). split; [reflexivity|]. split; [|exact H].
    destruct H as [Hl _]. destruct result; [discriminate Hl | discriminate].
  - exists (text :: strings). auto.
Qed.

Lemma Split_comma_not_nil (text : string) : env.Split_comma text <> [].
Proof.
  destruct text as [|c rest]; cbn; [discriminate|].
  destruct (Ascii.eqb c ","); [discriminate|].
  destruct (env.Split_comma rest); discriminate.
Qed.

(** The pieces, joined by commas, are the text. *)
Lemma Split_comma_join (text : string) :
  join "," (env.Split_comma text) = text.
Proof.
  induction text as [|c rest IH]; [reflexivity|].
  cbn [env.Split_comma]. destruct (Ascii.eqb_spec c ",") as [->|Hc].
  - pose proof (Split_comma_not_nil rest) as Hne.
    destruct (env.Split_comma rest) as [|piece pieces]; [congruence|].
    cbn [join] in *. rewrite IH. reflexivity.
  - destruct (env.Split_comma rest) as [|piece pieces] eqn:Hs.
    + exfalso. exact (Split_comma_not_nil rest Hs).
    + destruct pieces; cbn [join] in *; rewrite <- IH; reflexivity.
Qed.

(** X20: [readWireguardAddresses] gives nothing, and no error, when the
    variable is empty; otherwise it gives either one network for each
    piece of the value between commas, in order, at least one, or no
    network at all and the error of the first piece that does not parse,
    under the name of the key that was found. *)
Theorem readWireguardAddresses_result :
  let found :=
    env.getEnvWithRetro s "WIREGUARD_ADDRESSES" ["WIREGUARD_ADDRESS"] in
  match env.readWireguardAddresses s with
  | (None, None) => snd found = ""
  | (Some networks, None) =>
      networks <> []
      /\ parsed_in_order s (env.Split_comma (snd found)) networks
  | (None, Some err) =>
      snd found <> ""
      /\ first_parse_error s (fst found) (env.Split_comma (snd found)) err
  | (Some _, Some _) => False
  end.
Proof.
  unfold env.readWireguardAddresses.
  destruct (env.getEnvWithRetro s "WIREGUARD_ADDRESSES"
              ["WIREGUARD_ADDRESS"]) as [key csv].
  cbn [fst snd]. destruct (String.eqb_spec csv "") as [->|Hcsv];
    [reflexivity|].
  pose proof (parseCIDRs_from_start key (env.Split_comma csv)) as H.
  destruct (env.parseCIDRs s key 0 (env.Split_comma csv) _)
    as [[result|] [err|]]; try contradiction.
  - split; [|exact H]. destruct H as [Hl _]. intros ->.
    apply (Split_comma_not_nil csv). cbn in Hl.
    destruct (env.Split_comma csv); [reflexivity | discriminate].
  - split; assumption.
Qed.

(** X21: the address of the control server is read as absent exactly when
    the value is empty, and is never the empty string; the value of the
    current key is taken as it is, the value of the retro-compatible key,
    a port, after a colon. *)
Theorem readControlServerAddress_result :
  let found :=
    env.getEnvWithRetro s "HTTP_CONTROL_SERVER_ADDRESS"
      ["CONTROL_SERVER_ADDRESS"] in
  (env.readControlServerAddress s = None <-> snd found = "")
  /\ env.readControlServerAddress s <> Some ""
  /\ forall address,
       env.readControlServerAddress s = Some address ->
       address = (if String.eqb (fst found) "HTTP_CONTROL_SERVER_ADDRESS"
                  then snd found else ":" ++ snd found).
Proof.
  unfold env.readControlServerAddress.
  destruct (env.getEnvWithRetro s "HTTP_CONTROL_SERVER_ADDRESS"
              ["CONTROL_SERVER_ADDRESS"]) as [key value].
  cbn [fst snd]. destruct (String.eqb_spec value "") as [->|Hvalue].
  - repeat split; try discriminate; auto.
  - destruct (String.eqb key "HTTP_CONTROL_SERVER_ADDRESS").
    + split; [split; [discriminate | congruence]|].
      split; [congruence|]. intros address [= <-]. reflexivity.
    + split; [split; [discriminate | congruence]|].
      split; [discriminate|]. intros address [= <-]. reflexivity.
Qed.

(** X22: when [binary.Validate] refuses the value of the log variable,
    [readControlServer] returns the zero value of the settings with the
    error of [binary.Validate] under the name of the variable: the pointer
    that came with the error is dropped and the address is not read. *)
Theorem readControlServer_error (log : ptr bool) (message : string) :
  env.binary_Validate s (env.env_Get s "HTTP_CONTROL_SERVER_LOG")
  = (log, Some message) ->
  env.readControlServer s
  = (env.ControlServer_zero,
     Some (mkError []
             ("environment variable HTTP_CONTROL_SERVER_LOG: "
              ++ message))).
Proof.
  intros H. unfold env.readControlServer, env.readControlServerLog.
  rewrite H. reflexivity.
Qed.

End Readers.

(** ** The properties above on inputs *)

(** The settings of the sample lack the certificate that cyberghost
    requires. *)
Lemma validate_error_cause_witness :
  cause sample_decls sample_settings "cyberghost" ErrMissingValue.
Proof.
  eapply (validate_error_cause sample_decls sample_world sample_settings
            "cyberghost"); reflexivity.
Defined.

(** The MSS fix 10000 passes and 10001 does not. *)
Lemma mssfix_bound_witness :
  validate sample_decls sample_world (set_MSSFix sample_settings (Some 10000))
    "mullvad" = Ret None
  /\ validate sample_decls sample_world
       (set_MSSFix sample_settings (Some 10001)) "mullvad"
     = Ret (Some (mkError [ErrOpenVPNMSSFixIsTooHigh]
                    ("mssfix option value is too high: 10001 is over "
                     ++ "the maximum value of 10000"))).
Proof.
  split.
  - apply (mssfix_bound sample_decls sample_world sample_settings "mullvad"
             10000).
    reflexivity.
  - apply (mssfix_bound sample_decls sample_world sample_settings "mullvad"
             10001).
    reflexivity.
Defined.

(** For airvpn, settings without user and password are judged as with
    them. *)
Lemma credentials_ignored_witness :
  validate sample_decls sample_world
    (set_credentials sample_settings None None) "airvpn"
  = validate sample_decls sample_world sample_settings "airvpn".
Proof.
  apply (credentials_ignored sample_decls sample_world sample_settings
           "airvpn" None None).
  reflexivity.
Defined.

(** For mullvad neither a file system without files nor the path
    matters. *)
Lemma files_ignored_witness :
  validate sample_decls
    (with_files sample_world (fun _ => Some "no such file") (fun _ => None))
    sample_settings "mullvad"
  = validate sample_decls sample_world sample_settings "mullvad"
  /\ validate sample_decls sample_world
       (set_ConfFile sample_settings (Some "/a.ovpn")) "mullvad"
     = validate sample_decls sample_world
         (set_ConfFile sample_settings (Some "")) "mullvad".
Proof.
  apply (files_ignored sample_decls sample_world sample_settings "mullvad").
  discriminate.
Defined.

(** For custom, settings without a path fail on it, without user and
    password too. *)
Lemma custom_configuration_file_witness :
  validate sample_decls sample_world
    (set_credentials sample_settings None None) "custom"
  = Ret (Some (mkError [ErrFilepathMissing]
                 "custom configuration file: filepath is missing")).
Proof.
  apply (proj1 (custom_configuration_file sample_decls sample_world
                  (set_credentials sample_settings None None) ""
                  (or_introl eq_refl) eq_refl)).
  reflexivity.
Defined.

(** The defaults for mullvad have no user. *)
Lemma defaults_lack_a_user_witness :
  validate sample_decls sample_world
    (setDefaults sample_decls OpenVPN_zero "mullvad") "mullvad"
  = Ret (Some (mkError [ErrOpenVPNUserIsEmpty] "user is empty")).
Proof.
  apply (defaults_lack_a_user sample_decls sample_world "mullvad").
  reflexivity.
Defined.

(** For cyberghost the default password is empty. *)
Lemma default_password_witness :
  fails_with
    (validate sample_decls sample_world
       (setDefaults sample_decls
          (set_credentials OpenVPN_zero (Some "jdoe") None) "cyberghost")
       "cyberghost")
    ErrOpenVPNPasswordIsEmpty
  = true.
Proof.
  apply (default_password sample_decls sample_world "cyberghost" "jdoe");
    [reflexivity | discriminate | discriminate].
Defined.

(** For mullvad a user is enough. *)
Lemma mullvad_user_is_enough_witness :
  validate sample_decls sample_world
    (setDefaults sample_decls
       (set_credentials OpenVPN_zero (Some "jdoe") None) "mullvad")
    "mullvad"
  = Ret None.
Proof.
  apply (mullvad_user_is_enough sample_decls sample_world "jdoe").
  - discriminate.
  - cbn. intros [H|[H|[H|[H|[H|[H|[]]]]]]]; discriminate H.
  - reflexivity.
Defined.

(** Ciphers, auth, a nil preset, another process user and flags change
    nothing. *)
Lemma validate_ignores_unchecked_fields_witness :
  validate sample_decls sample_world
    (mkOpenVPN "2.5" (Some "jdoe") (Some "m") (Some "") (Some ["aes"])
       (Some "sha256") (Some "") (Some "") (Some "") (Some "") None
       (Some 0) "tun0" "nobody" (Some 1) (Some ["--fast-io"]))
    "mullvad"
  = validate sample_decls sample_world sample_settings "mullvad".
Proof.
  apply validate_ignores_unchecked_fields.
  intros f; destruct f; first [exact I | reflexivity].
Defined.

(** A log variable that is neither on nor off: the address is not read. *)
Lemma readControlServer_error_witness :
  env.readControlServer
    (sample_source [("HTTP_CONTROL_SERVER_LOG", "maybe");
                    ("CONTROL_SERVER_ADDRESS", "8000")])
  = (env.ControlServer_zero,
     Some (mkError []
             ("environment variable HTTP_CONTROL_SERVER_LOG: "
              ++ "value maybe is not on or off"))).
Proof.
  apply (readControlServer_error
           (sample_source [("HTTP_CONTROL_SERVER_LOG", "maybe");
                           ("CONTROL_SERVER_ADDRESS", "8000")])
           None "value maybe is not on or off").
  reflexivity.
Defined.

Example readControlServer_sample :
  env.readControlServer
    (sample_source [("HTTP_CONTROL_SERVER_LOG", "on");
                    ("CONTROL_SERVER_ADDRESS", "8000")])
  = (env.mkControlServer (Some ":8000") (Some true), None).
Proof. reflexivity. Qed.

Example readControlServerAddress_current_key :
  env.readControlServerAddress
    (sample_source [("HTTP_CONTROL_SERVER_ADDRESS", "127.0.0.1:8000");
                    ("CONTROL_SERVER_ADDRESS", "9000")])
  = Some "127.0.0.1:8000".
Proof. reflexivity. Qed.

Example readWireguardAddresses_sample :
  env.readWireguardAddresses
    (sample_source [("WIREGUARD_ADDRESS", "10.0.0.1/24, 10.0.1.7/32")])
  = (Some [ wireguard.mkIPNet (Some [10; 0; 0; 1])
              (Some [255; 255; 255; 0]);
            wireguard.mkIPNet (Some [10; 0; 1; 7])
              (Some [255; 255; 255; 255]) ],
     None).
Proof. reflexivity. Qed.

Example readWireguardAddresses_first_error :
  env.readWireguardAddresses
    (sample_source [("WIREGUARD_ADDRESS", "10.0.0.1/24,nope,10.0.1.7/32,")])
  = (None,
     Some (mkError []
             ("environment variable WIREGUARD_ADDRESS: "
              ++ "invalid CIDR address: nope"))).
Proof. reflexivity. Qed.

Example readWireguardAllowedIPs_unset :
  env.readWireguardAllowedIPs (sample_source []) = (None, None).
Proof. reflexivity. Qed.

Example readWireguardAllowedIPs_sample :
  env.readWireguardAllowedIPs
    (sample_source [("WIREGUARD_ALLOWED_IPS", "10.0.1.7/32")])
  = (Some [ wireguard.mkIPNet (Some [10; 0; 1; 7])
              (Some [255; 255; 255; 255]) ],
     None).
Proof. reflexivity. Qed.
